(** * colorTest_main.c : the colour guessing game on the Booster board

    A shallow embedding of [match], [guess], [testFSM] and [ScreensFSM]
    of [colorTest_main.c], and the properties of the two cooperating state
    machines.

    - [unsigned int] values are [Z] with the 32-bit wrap-around written out.
    - The [static] locals of [testFSM] and [ScreensFSM] are records passed in
      and out of every poll.
    - The board support calls (LCD, LEDs, buttons, one-shot timer, joystick
      ADC) are not part of the file: a call that returns a value reads it
      from the hardware inputs of the current poll, and every call is logged,
      in program order, in the list of events of the poll. *)

From Stdlib Require Import ZArith List Bool String Ascii Lia.
Import ListNotations.
Open Scope Z_scope.

(** ** Constants and types *)

Definition OPENING_WAIT : Z := 1000.
Definition ENDTEST_WAIT : Z := 2000.

Definition TOP_OPTION_POS : Z := 1.
Definition BOTTOM_OPTION_POS : Z := 4.

(** [typedef enum {RED, GREEN, BLUE} color_t;] and [#define END 3].  The
    variable [colorIndex] of this type is incremented past [BLUE], so it is
    kept as the integer the enumeration stands for. *)
Definition RED : Z := 0.
Definition GREEN : Z := 1.
Definition BLUE : Z := 2.
Definition END : Z := 3.

Record colorMix_t : Type := mkColorMix {
  hasRed : bool;
  hasGreen : bool;
  hasBlue : bool
}.

(** Arithmetic of [unsigned int] (32 bits on the MSP432). *)
Definition UINT_MOD : Z := 2 ^ 32.
Definition uint (z : Z) : Z := z mod UINT_MOD.

(** ** The board support layer *)

Inductive color_bg : Type := MY_BLACK.
Inductive hwtimer_base : Type := TIMER32_1_BASE.

(** One constructor per board support call the program makes. *)
Inductive event : Type :=
| E_LCDClearDisplay (bg : color_bg)
| E_PrintString (s : string) (row col : Z)
| E_LCDDrawChar (row col : Z) (c : ascii)
| E_TurnON_Booster_Red_LED
| E_TurnON_Booster_Green_LED
| E_TurnON_Booster_Blue_LED
| E_TurnOFF_Booster_Red_LED
| E_TurnOFF_Booster_Green_LED
| E_TurnOFF_Booster_Blue_LED
| E_getSampleJoyStick
| E_Booster_Bottom_Button_Pushed
| E_Booster_Top_Button_Pushed
| E_OneShotSWTimerExpired
| E_InitOneShotSWTimer (base : hwtimer_base) (waitMs : Z)
| E_StartOneShotSWTimer.

(** What the hardware answers during one poll.  Every query below is made at
    most once per call of [ScreensFSM], so one value per poll is enough. *)
Record hw_inputs : Type := mkInputs {
  joystick : Z * Z;        (* vx, vy of getSampleJoyStick *)
  bottom_edge : bool;      (* Booster_Bottom_Button_Pushed *)
  top_edge : bool;         (* Booster_Top_Button_Pushed *)
  timer_expired : bool;    (* OneShotSWTimerExpired(&OST) *)
  result_on_entry : bool   (* what the uninitialised local [result] of
                              ScreensFSM holds when the call begins *)
}.

(** A computation that may query the hardware and logs its calls. *)
Definition HAL (A : Type) : Type := hw_inputs -> A * list event.

Definition ret {A} (a : A) : HAL A := fun _ => (a, []).

Definition bind {A B} (m : HAL A) (k : A -> HAL B) : HAL B :=
  fun hw =>
    let (a, tr1) := m hw in
    let (b, tr2) := k a hw in
    (b, tr1 ++ tr2).

Declare Scope hal_scope.
Delimit Scope hal_scope with hal.
Notation "x <- m ;; k" := (bind m (fun x => k))
  (at level 61, m at next level, right associativity) : hal_scope.
Notation "' p <- m ;; k" := (bind m (fun p => k))
  (at level 61, p pattern, m at next level, right associativity) : hal_scope.
Notation "m ;;; k" := (bind m (fun _ => k))
  (at level 61, right associativity) : hal_scope.
Open Scope hal_scope.

Definition call (e : event) : HAL unit := fun _ => (tt, [e]).
Definition query {A} (e : event) (f : hw_inputs -> A) : HAL A :=
  fun hw => (f hw, [e]).

(** [when c m]: the C statement [if (c) m;]. *)
Definition when (c : bool) (m : HAL unit) : HAL unit :=
  if c then m else ret tt.

Definition LCDClearDisplay (bg : color_bg) : HAL unit :=
  call (E_LCDClearDisplay bg).
Definition PrintString (s : string) (row col : Z) : HAL unit :=
  call (E_PrintString s row col).
Definition LCDDrawChar (row col : Z) (c : ascii) : HAL unit :=
  call (E_LCDDrawChar row col c).
Definition TurnON_Booster_Red_LED : HAL unit := call E_TurnON_Booster_Red_LED.
Definition TurnON_Booster_Green_LED : HAL unit := call E_TurnON_Booster_Green_LED.
Definition TurnON_Booster_Blue_LED : HAL unit := call E_TurnON_Booster_Blue_LED.
Definition TurnOFF_Booster_Red_LED : HAL unit := call E_TurnOFF_Booster_Red_LED.
Definition TurnOFF_Booster_Green_LED : HAL unit := call E_TurnOFF_Booster_Green_LED.
Definition TurnOFF_Booster_Blue_LED : HAL unit := call E_TurnOFF_Booster_Blue_LED.
Definition getSampleJoyStick : HAL (Z * Z) :=
  query E_getSampleJoyStick joystick.
Definition Booster_Bottom_Button_Pushed : HAL bool :=
  query E_Booster_Bottom_Button_Pushed bottom_edge.
Definition Booster_Top_Button_Pushed : HAL bool :=
  query E_Booster_Top_Button_Pushed top_edge.
Definition OneShotSWTimerExpired : HAL bool :=
  query E_OneShotSWTimerExpired timer_expired.
Definition InitOneShotSWTimer (base : hwtimer_base) (waitMs : Z) : HAL unit :=
  call (E_InitOneShotSWTimer base waitMs).
Definition StartOneShotSWTimer : HAL unit := call E_StartOneShotSWTimer.

(** ** The screens *)

Definition DrawOpeningScreen : HAL unit :=
  LCDClearDisplay MY_BLACK ;;;
  PrintString "COLOR TEST" 2 2 ;;;
  PrintString "by" 3 3 ;;;
  PrintString "LN" 4 2.

Definition DrawInstructionsScreen : HAL unit :=
  LCDClearDisplay MY_BLACK ;;;
  PrintString "Guess RGB mix." 1 1 ;;;
  PrintString "During test:" 2 1 ;;;
  PrintString "BTM: move arrow" 3 1 ;;;
  PrintString "TOP: select" 4 1 ;;;
  PrintString "BTM to start" 7 1.

Definition DrawTestScreen : HAL unit :=
  LCDClearDisplay MY_BLACK ;;;
  PrintString "Red" 1 3 ;;;
  PrintString "Green" 2 3 ;;;
  PrintString "Blue" 3 3 ;;;
  PrintString "End test" 4 3 ;;;
  PrintString "BTM: move arrow" 6 1 ;;;
  PrintString "TOP: select" 7 1 ;;;
  LCDDrawChar 1 1 ">".

Definition DrawEndTestScreen (correct : bool) : HAL unit :=
  LCDClearDisplay MY_BLACK ;;;
  if correct then PrintString "Right!" 2 3 else PrintString "Wrong!" 2 3.

(** ** [match] *)

(** [match] is a keyword of Rocq; the function is called [match_]. *)
Definition match_ (guessColor actualColor : colorMix_t) : bool :=
  if (Bool.eqb (hasBlue guessColor) (hasBlue actualColor) &&
      Bool.eqb (hasGreen guessColor) (hasGreen actualColor) &&
      Bool.eqb (hasRed guessColor) (hasRed actualColor))%bool
  then true
  else false.

(** ** [guess] *)

Definition set_hasRed (c : colorMix_t) (b : bool) : colorMix_t :=
  mkColorMix b (hasGreen c) (hasBlue c).
Definition set_hasGreen (c : colorMix_t) (b : bool) : colorMix_t :=
  mkColorMix (hasRed c) b (hasBlue c).
Definition set_hasBlue (c : colorMix_t) (b : bool) : colorMix_t :=
  mkColorMix (hasRed c) (hasGreen c) b.

(** The two pointers of [guess] are passed as their contents, and the
    contents on return come back with the returned flag:
    [(finished, *arrowPosPointer, *guessColor)]. *)
Definition guess (arrowPos0 : Z) (guessColor0 : colorMix_t)
  : HAL (bool * Z * colorMix_t) :=
  bottom <- Booster_Bottom_Button_Pushed ;;
  arrowPos <-
    (if bottom then
       LCDDrawChar arrowPos0 1 " " ;;;
       let arrowPos := uint (arrowPos0 + 1) in
       let arrowPos :=
         if arrowPos >? BOTTOM_OPTION_POS then TOP_OPTION_POS else arrowPos in
       LCDDrawChar arrowPos 1 ">" ;;;
       ret arrowPos
     else ret arrowPos0) ;;
  top <- Booster_Top_Button_Pushed ;;
  if top then
    LCDDrawChar arrowPos 9 "*" ;;;
    let choice := uint (arrowPos - TOP_OPTION_POS) in
    if choice =? RED then
      ret (false, arrowPos, set_hasRed guessColor0 true)
    else if choice =? GREEN then
      ret (false, arrowPos, set_hasGreen guessColor0 true)
    else if choice =? BLUE then
      ret (false, arrowPos, set_hasBlue guessColor0 true)
    else
      ret (true, arrowPos, guessColor0)
  else
    ret (false, arrowPos, guessColor0).

(** ** [testFSM] *)

Inductive testState_t : Type := setup | lightup | testing.

(** The [static] locals of [testFSM]. *)
Record testFSM_statics : Type := mkTestStatics {
  actualColor : colorMix_t;
  guessColor : colorMix_t;
  colorIndex : Z;
  testState : testState_t;
  arrowPos : Z
}.

Definition set_actualColor (s : testFSM_statics) (c : colorMix_t) :=
  mkTestStatics c (guessColor s) (colorIndex s) (testState s) (arrowPos s).
Definition set_guessColor (s : testFSM_statics) (c : colorMix_t) :=
  mkTestStatics (actualColor s) c (colorIndex s) (testState s) (arrowPos s).
Definition set_colorIndex (s : testFSM_statics) (i : Z) :=
  mkTestStatics (actualColor s) (guessColor s) i (testState s) (arrowPos s).
Definition set_testState (s : testFSM_statics) (t : testState_t) :=
  mkTestStatics (actualColor s) (guessColor s) (colorIndex s) t (arrowPos s).
Definition set_arrowPos (s : testFSM_statics) (p : Z) :=
  mkTestStatics (actualColor s) (guessColor s) (colorIndex s) (testState s) p.

(** Statics are zero-initialised when the program starts. *)
Definition testFSM_init : testFSM_statics :=
  mkTestStatics (mkColorMix false false false) (mkColorMix false false false)
                RED setup 0.

(** The block under [if (newTest)]. *)
Definition testFSM_reset (s : testFSM_statics) : HAL testFSM_statics :=
  let s := set_testState s setup in
  let s := set_colorIndex s RED in
  let s := set_arrowPos s TOP_OPTION_POS in
  TurnOFF_Booster_Blue_LED ;;;
  TurnOFF_Booster_Green_LED ;;;
  TurnOFF_Booster_Red_LED ;;;
  let s := set_guessColor s (set_hasRed (guessColor s) false) in
  let s := set_guessColor s (set_hasGreen (guessColor s) false) in
  let s := set_guessColor s (set_hasBlue (guessColor s) false) in
  ret s.

(** [randomBit = (vx%2) ^ (vy%2)], converted to [bool]. *)
Definition randomBit_of (vx vy : Z) : bool :=
  negb (Z.lxor (vx mod 2) (vy mod 2) =? 0).

(** The [switch (testState)]; gives [finished] and the statics.
    [colorIndex++] is taken on a 32-bit enumeration; from a new test the
    variable only takes the values 0 to 4. *)
Definition testFSM_switch (s : testFSM_statics)
  : HAL (bool * testFSM_statics) :=
  match testState s with
  | setup =>
      '(vx, vy) <- getSampleJoyStick ;;
      let randomBit := randomBit_of vx vy in
      let s :=
        if colorIndex s =? RED then
          set_actualColor s (set_hasRed (actualColor s) randomBit)
        else if colorIndex s =? GREEN then
          set_actualColor s (set_hasGreen (actualColor s) randomBit)
        else if colorIndex s =? BLUE then
          set_actualColor s (set_hasBlue (actualColor s) randomBit)
        else
          set_testState s lightup in
      ret (false, set_colorIndex s (uint (colorIndex s + 1)))
  | lightup =>
      when (hasRed (actualColor s)) TurnON_Booster_Red_LED ;;;
      when (hasGreen (actualColor s)) TurnON_Booster_Green_LED ;;;
      when (hasBlue (actualColor s)) TurnON_Booster_Blue_LED ;;;
      ret (false, set_testState s testing)
  | testing =>
      '(finished, arrowPos', guessColor') <-
        guess (arrowPos s) (guessColor s) ;;
      ret (finished, set_guessColor (set_arrowPos s arrowPos') guessColor')
  end.

(** [testFSM newTest resultPointer]: [result] is the content of
    [*resultPointer] at the call; the content on return comes back with the
    returned flag and the statics: [(finished, *resultPointer, statics)]. *)
Definition testFSM (newTest : bool) (result : bool) (s : testFSM_statics)
  : HAL (bool * bool * testFSM_statics) :=
  s <- (if newTest then testFSM_reset s else ret s) ;;
  '(finished, s) <- testFSM_switch s ;;
  let result :=
    if finished then match_ (guessColor s) (actualColor s) else result in
  ret (finished, result, s).

(** ** [ScreensFSM] *)

Inductive states : Type := INCEPTION | OPENING | INSTRUCTIONS | TEST | TESTEND.

(** The [static] locals of [ScreensFSM], with those of the [testFSM] it
    calls.  The timer handle [OST] belongs to the timer driver: what the
    program does with it is in the events. *)
Record ScreensFSM_statics : Type := mkScreenStatics {
  state : states;
  newTest : bool;
  test : testFSM_statics
}.

Definition ScreensFSM_init : ScreensFSM_statics :=
  mkScreenStatics INCEPTION false testFSM_init.

(** The outputs of the FSM, all [false] by default. *)
Record fsm_outputs : Type := mkOutputs {
  drawOpeningScreen : bool;
  drawInstructionsScreen : bool;
  drawTestScreen : bool;
  drawEndScreen : bool;
  startSWTimer : bool
}.

Definition default_outputs : fsm_outputs :=
  mkOutputs false false false false false.

(** The [switch (state)]; gives the statics, the outputs and the local
    [result]. *)
Definition ScreensFSM_switch (s : ScreensFSM_statics) (result : bool)
  : HAL (ScreensFSM_statics * fsm_outputs * bool) :=
  match state s with
  | INCEPTION =>
      ret (mkScreenStatics OPENING (newTest s) (test s),
           mkOutputs true false false false true, result)
  | OPENING =>
      swTimerExpired <- OneShotSWTimerExpired ;;
      if swTimerExpired then
        ret (mkScreenStatics INSTRUCTIONS (newTest s) (test s),
             mkOutputs false true false false false, result)
      else ret (s, default_outputs, result)
  | INSTRUCTIONS =>
      bottomPushed <- Booster_Bottom_Button_Pushed ;;
      if bottomPushed then
        ret (mkScreenStatics TEST true (test s),
             mkOutputs false false true false false, result)
      else ret (s, default_outputs, result)
  | TEST =>
      '(testFinished, result, t) <- testFSM (newTest s) result (test s) ;;
      if testFinished then
        ret (mkScreenStatics TESTEND false t,
             mkOutputs false false false true true, result)
      else ret (mkScreenStatics TEST false t, default_outputs, result)
  | TESTEND =>
      swTimerExpired <- OneShotSWTimerExpired ;;
      if swTimerExpired then
        ret (mkScreenStatics INSTRUCTIONS (newTest s) (test s),
             mkOutputs false true false false false, result)
      else ret (s, default_outputs, result)
  end.

Definition ScreensFSM (s : ScreensFSM_statics) : HAL ScreensFSM_statics :=
  fun hw =>
    ('(s, out, result) <- ScreensFSM_switch s (result_on_entry hw) ;;
     when (startSWTimer out)
       (InitOneShotSWTimer TIMER32_1_BASE OPENING_WAIT ;;;
        StartOneShotSWTimer) ;;;
     when (drawOpeningScreen out) DrawOpeningScreen ;;;
     when (drawInstructionsScreen out) DrawInstructionsScreen ;;;
     when (drawTestScreen out) DrawTestScreen ;;;
     when (drawEndScreen out) (DrawEndTestScreen result) ;;;
     ret s) hw.

(** The loop of [main], [while (1) ScreensFSM();], over the hardware inputs
    of as many polls as the list holds: the statics after the last poll and
    the events of all of them. *)
Fixpoint main_loop (s : ScreensFSM_statics) (polls : list hw_inputs)
  : ScreensFSM_statics * list event :=
  match polls with
  | [] => (s, [])
  | hw :: polls' =>
      let (s1, tr1) := ScreensFSM s hw in
      let (s2, tr2) := main_loop s1 polls' in
      (s2, tr1 ++ tr2)
  end.

(** The statics after every poll of the loop, in order. *)
Fixpoint main_loop_states (s : ScreensFSM_statics) (polls : list hw_inputs)
  : list ScreensFSM_statics :=
  match polls with
  | [] => []
  | hw :: polls' =>
      let s1 := fst (ScreensFSM s hw) in
      s1 :: main_loop_states s1 polls'
  end.

(** ** Reading the results of one poll *)

Definition guess_finished (p : Z) (g : colorMix_t) (hw : hw_inputs) : bool :=
  fst (fst (fst (guess p g hw))).
Definition guess_arrowPos (p : Z) (g : colorMix_t) (hw : hw_inputs) : Z :=
  snd (fst (fst (guess p g hw))).
Definition guess_color (p : Z) (g : colorMix_t) (hw : hw_inputs) : colorMix_t :=
  snd (fst (guess p g hw)).
Definition guess_events (p : Z) (g : colorMix_t) (hw : hw_inputs) : list event :=
  snd (guess p g hw).

Definition testFSM_finished (nt r : bool) (s : testFSM_statics) (hw : hw_inputs)
  : bool := fst (fst (fst (testFSM nt r s hw))).
Definition testFSM_result (nt r : bool) (s : testFSM_statics) (hw : hw_inputs)
  : bool := snd (fst (fst (testFSM nt r s hw))).
Definition testFSM_statics_after (nt r : bool) (s : testFSM_statics)
  (hw : hw_inputs) : testFSM_statics := snd (fst (testFSM nt r s hw)).
Definition testFSM_events (nt r : bool) (s : testFSM_statics) (hw : hw_inputs)
  : list event := snd (testFSM nt r s hw).

Definition all_false : colorMix_t := mkColorMix false false false.

Definition is_TurnON (e : event) : bool :=
  match e with
  | E_TurnON_Booster_Red_LED
  | E_TurnON_Booster_Green_LED
  | E_TurnON_Booster_Blue_LED => true
  | _ => false
  end.

Definition is_InitOneShotSWTimer (e : event) : bool :=
  match e with
  | E_InitOneShotSWTimer _ _ => true
  | _ => false
  end.

(** Hardware inputs in which only the named button fires. *)
Definition only_move (hw : hw_inputs) : hw_inputs :=
  mkInputs (joystick hw) true false (timer_expired hw) (result_on_entry hw).
Definition only_select (hw : hw_inputs) : hw_inputs :=
  mkInputs (joystick hw) false true (timer_expired hw) (result_on_entry hw).
Definition quiet : hw_inputs := mkInputs (0, 0) false false false false.

(** The random bit a Setup poll draws from the joystick sample. *)
Definition sampled_bit (hw : hw_inputs) : bool :=
  randomBit_of (fst (joystick hw)) (snd (joystick hw)).

(** The exclusive-or of the parities of the two sampled magnitudes. *)
Definition parity_xor (hw : hw_inputs) : bool :=
  xorb (Z.odd (fst (joystick hw))) (Z.odd (snd (joystick hw))).

(** The calls of the new-test block and of the [lightup] state. *)
Definition reset_events : list event :=
  [E_TurnOFF_Booster_Blue_LED; E_TurnOFF_Booster_Green_LED;
   E_TurnOFF_Booster_Red_LED].

Definition lightup_events (a : colorMix_t) : list event :=
  (if hasRed a then [E_TurnON_Booster_Red_LED] else []) ++
  (if hasGreen a then [E_TurnON_Booster_Green_LED] else []) ++
  (if hasBlue a then [E_TurnON_Booster_Blue_LED] else []).

(** The calls of a timer start and of the instructions screen. *)
Definition timer_start_events (waitMs : Z) : list event :=
  [E_InitOneShotSWTimer TIMER32_1_BASE waitMs; E_StartOneShotSWTimer].

Definition instructions_screen_events : list event :=
  snd (DrawInstructionsScreen quiet).

(** A run of the program up to the end of a test: the opening screen, the
    timer expiring, the bottom button starting the test, the five polls that
    draw the mix and light the LEDs, three moves of the arrow down to the
    End row, and the select that ends the test. *)
Definition expired : hw_inputs := mkInputs (0, 0) false false true false.

Definition endtest_run : list hw_inputs :=
  [quiet; expired; only_move quiet;
   quiet; quiet; quiet; quiet; quiet;
   only_move quiet; only_move quiet; only_move quiet;
   only_select quiet].

(** A run of the program into a second test: a first test whose joystick
    samples give an actual mix of Red and Blue, ended on the End row without
    a selection; the end screen until the timer expires; and the bottom
    button that starts the next test, which raises [newTest]. *)
Definition odd_sample : hw_inputs := mkInputs (1, 0) false false false false.

Definition second_test_run : list hw_inputs :=
  [quiet; expired; only_move quiet;
   odd_sample; quiet; odd_sample; quiet; quiet;
   only_move quiet; only_move quiet; only_move quiet;
   only_select quiet;
   expired; only_move quiet].

(** ** Further definitions used by the properties *)

(** Hardware inputs that differ only in what the local [result] holds, or
    only in the two button edges. *)
Definition with_result_on_entry (hw : hw_inputs) (r : bool) : hw_inputs :=
  mkInputs (joystick hw) (bottom_edge hw) (top_edge hw) (timer_expired hw) r.

Definition with_buttons (hw : hw_inputs) (bottom top : bool) : hw_inputs :=
  mkInputs (joystick hw) bottom top (timer_expired hw) (result_on_entry hw).

Definition test_screen_events : list event := snd (DrawTestScreen quiet).

(** The arrows of the state diagram of [ScreensFSM]. *)
Definition transition_allowed (a b : states) : bool :=
  match a, b with
  | INCEPTION, OPENING
  | OPENING, OPENING | OPENING, INSTRUCTIONS
  | INSTRUCTIONS, INSTRUCTIONS | INSTRUCTIONS, TEST
  | TEST, TEST | TEST, TESTEND
  | TESTEND, TESTEND | TESTEND, INSTRUCTIONS => true
  | _, _ => false
  end.

Definition is_INCEPTION (st : states) : bool :=
  match st with INCEPTION => true | _ => false end.
Definition is_TEST (st : states) : bool :=
  match st with TEST => true | _ => false end.

(** The order of the states of [testFSM]. *)
Definition phase_rank (t : testState_t) : Z :=
  match t with setup => 0 | lightup => 1 | testing => 2 end.

Definition is_testing (t : testState_t) : bool :=
  match t with testing => true | _ => false end.
Definition is_lightup (t : testState_t) : bool :=
  match t with lightup => true | _ => false end.

Definition is_LED (e : event) : bool :=
  match e with
  | E_TurnON_Booster_Red_LED | E_TurnON_Booster_Green_LED
  | E_TurnON_Booster_Blue_LED | E_TurnOFF_Booster_Red_LED
  | E_TurnOFF_Booster_Green_LED | E_TurnOFF_Booster_Blue_LED => true
  | _ => false
  end.

(** The calls [guess] makes: the two button queries and the menu marks. *)
Definition is_menu_call (e : event) : bool :=
  match e with
  | E_Booster_Bottom_Button_Pushed
  | E_Booster_Top_Button_Pushed
  | E_LCDDrawChar _ _ _ => true
  | _ => false
  end.

(** The guessed mix [g] has a channel that the actual mix [a] has not. *)
Definition over_selected (g a : colorMix_t) : bool :=
  (hasRed g && negb (hasRed a)) || (hasGreen g && negb (hasGreen a)) ||
  (hasBlue g && negb (hasBlue a)).

(** What holds of the statics of [testFSM] during a test, once the new-test
    block has run: the arrow is on a row of the menu, and the colour cursor
    is past Red and at most one past Blue until the state leaves [setup]. *)
Definition test_statics_ok (t : testFSM_statics) : Prop :=
  TOP_OPTION_POS <= arrowPos t <= BOTTOM_OPTION_POS /\
  match testState t with
  | setup => GREEN <= colorIndex t <= END
  | lightup => colorIndex t = END + 1
  | testing => True
  end.

Definition run_invariant (s : ScreensFSM_statics) : Prop :=
  state s = TEST -> newTest s = true \/ test_statics_ok (test s).

(** * Properties *)

Ltac hal_unfold :=
  unfold guess_finished, guess_arrowPos, guess_color, guess_events,
         testFSM_finished, testFSM_result, testFSM_statics_after,
         testFSM_events, testFSM, testFSM_switch, testFSM_reset, guess,
         getSampleJoyStick, Booster_Bottom_Button_Pushed,
         Booster_Top_Button_Pushed, OneShotSWTimerExpired,
         TurnON_Booster_Red_LED, TurnON_Booster_Green_LED,
         TurnON_Booster_Blue_LED, TurnOFF_Booster_Red_LED,
         TurnOFF_Booster_Green_LED, TurnOFF_Booster_Blue_LED,
         LCDDrawChar, when, bind, ret, call, query in *.

(** ** [match] *)

Lemma match_componentwise : forall a b,
  match_ a b =
  (Bool.eqb (hasRed a) (hasRed b) && Bool.eqb (hasGreen a) (hasGreen b) &&
   Bool.eqb (hasBlue a) (hasBlue b))%bool.
Proof.
  intros [ar ag ab] [br bg bb]; unfold match_; simpl.
  destruct ar, ag, ab, br, bg, bb; reflexivity.
Qed.

Lemma match_true_iff : forall a b, match_ a b = true <-> a = b.
Proof.
  intros [ar ag ab] [br bg bb]; split.
  - unfold match_; simpl.
    destruct ar, ag, ab, br, bg, bb; simpl; intros H;
      first [reflexivity | discriminate H].
  - intros ->. unfold match_; simpl.
    now rewrite !Bool.eqb_reflx.
Qed.

(** C5: for all colour mixes [a] and [b], [match(a, b)] equals
    [match(b, a)], [match(a, a)] is true, and [match] is the component-wise
    equality of the three flags. *)
Theorem match_symmetric_reflexive : forall a b : colorMix_t,
  match_ a b = match_ b a /\
  match_ a a = true /\
  (match_ a b = true <->
   hasRed a = hasRed b /\ hasGreen a = hasGreen b /\ hasBlue a = hasBlue b).
Proof.
  intros a b. repeat split.
  - rewrite !match_componentwise.
    destruct a as [[] [] []], b as [[] [] []]; reflexivity.
  - now apply match_true_iff.
  - apply match_true_iff in H. now subst.
  - apply match_true_iff in H. now subst.
  - apply match_true_iff in H. now subst.
  - intros (Hr & Hg & Hb). apply match_true_iff.
    destruct a, b; simpl in *; congruence.
Qed.

(** ** [guess] *)

(** The row the arrow moves to from row [p]. *)
Lemma guess_arrowPos_eq : forall p g hw,
  guess_arrowPos p g hw =
  if bottom_edge hw then
    if uint (p + 1) >? BOTTOM_OPTION_POS then TOP_OPTION_POS else uint (p + 1)
  else p.
Proof.
  intros p g hw. hal_unfold.
  destruct (bottom_edge hw), (top_edge hw); cbn [fst snd];
    repeat match goal with
           | |- context [if ?c then _ else _] => destruct c
           end; reflexivity.
Qed.

(** What a poll does to the guessed mix, from the row the arrow is on once
    the move, if any, is done. *)
Lemma guess_color_eq : forall p g hw,
  guess_color p g hw =
  if top_edge hw then
    let choice := uint (guess_arrowPos p g hw - TOP_OPTION_POS) in
    if choice =? RED then set_hasRed g true
    else if choice =? GREEN then set_hasGreen g true
    else if choice =? BLUE then set_hasBlue g true
    else g
  else g.
Proof.
  intros p g hw. rewrite guess_arrowPos_eq. hal_unfold.
  destruct (bottom_edge hw), (top_edge hw); cbn [fst snd];
    repeat match goal with
           | |- context [if ?c then _ else _] => destruct c
           end; reflexivity.
Qed.

Lemma guess_finished_eq : forall p g hw,
  guess_finished p g hw =
  if top_edge hw then
    let choice := uint (guess_arrowPos p g hw - TOP_OPTION_POS) in
    if choice =? RED then false
    else if choice =? GREEN then false
    else if choice =? BLUE then false
    else true
  else false.
Proof.
  intros p g hw. rewrite guess_arrowPos_eq. hal_unfold.
  destruct (bottom_edge hw), (top_edge hw); cbn [fst snd];
    repeat match goal with
           | |- context [if ?c then _ else _] => destruct c
           end; reflexivity.
Qed.

Lemma uint_small : forall z, 0 <= z < UINT_MOD -> uint z = z.
Proof. intros z Hz. unfold uint. now apply Z.mod_small. Qed.

(** C4: from every menu position between the first selectable row and the
    End row, a poll of [guess] with a move-button edge advances the arrow by
    exactly one row, from the End row back to the first selectable row; a
    poll without one leaves it; the position handed back to the caller is
    within the two rows again. *)
Theorem guess_move_advances_and_wraps :
  forall (p : Z) (g : colorMix_t) (hw : hw_inputs),
  TOP_OPTION_POS <= p <= BOTTOM_OPTION_POS ->
  (bottom_edge hw = true ->
   guess_arrowPos p g hw =
   if p =? BOTTOM_OPTION_POS then TOP_OPTION_POS else p + 1) /\
  (bottom_edge hw = false -> guess_arrowPos p g hw = p) /\
  TOP_OPTION_POS <= guess_arrowPos p g hw <= BOTTOM_OPTION_POS.
Proof.
  intros p g hw Hp. rewrite guess_arrowPos_eq.
  assert (Hu : uint (p + 1) = p + 1).
  { apply uint_small. unfold UINT_MOD, TOP_OPTION_POS, BOTTOM_OPTION_POS in *.
    lia. }
  rewrite Hu. unfold TOP_OPTION_POS, BOTTOM_OPTION_POS in *.
  destruct (bottom_edge hw); repeat split; intros; try discriminate;
    try lia;
    destruct (Z.gtb_spec (p + 1) 4), (Z.eqb_spec p 4); lia.
Qed.

Lemma guess_move_advances_and_wraps_witness :
  guess_arrowPos 4 all_false (only_move quiet) = 1 /\
  guess_arrowPos 2 all_false (only_move quiet) = 3 /\
  1 <= guess_arrowPos 4 all_false (only_move quiet) <= 4.
Proof.
  assert (H4 : TOP_OPTION_POS <= 4 <= BOTTOM_OPTION_POS)
    by (unfold TOP_OPTION_POS, BOTTOM_OPTION_POS; lia).
  assert (H2 : TOP_OPTION_POS <= 2 <= BOTTOM_OPTION_POS)
    by (unfold TOP_OPTION_POS, BOTTOM_OPTION_POS; lia).
  destruct (guess_move_advances_and_wraps 4 all_false (only_move quiet) H4)
    as (Hm4 & _ & Hr4).
  destruct (guess_move_advances_and_wraps 2 all_false (only_move quiet) H2)
    as (Hm2 & _ & _).
  split; [exact (Hm4 eq_refl) | split; [exact (Hm2 eq_refl) | exact Hr4]].
Defined.

(** The calls of one poll of [guess], in program order. *)
Lemma guess_events_eq : forall p g hw,
  guess_events p g hw =
  E_Booster_Bottom_Button_Pushed ::
  (if bottom_edge hw then
     [E_LCDDrawChar p 1 " "; E_LCDDrawChar (guess_arrowPos p g hw) 1 ">"]
   else []) ++
  E_Booster_Top_Button_Pushed ::
  (if top_edge hw then [E_LCDDrawChar (guess_arrowPos p g hw) 9 "*"] else []).
Proof.
  intros p g hw. rewrite guess_arrowPos_eq. hal_unfold.
  destruct (bottom_edge hw), (top_edge hw); cbn [fst snd];
    repeat match goal with
           | |- context [if ?c then _ else _] => destruct c
           end; reflexivity.
Qed.

(** C6: on a row of Red, Green or Blue a select sets the flag of that row
    to true and leaves the two other flags as they were, and a second select
    on the same row leaves the guessed mix as the first select made it;
    neither select moves the arrow or ends the test. *)
Theorem guess_select_idempotent :
  forall (p : Z) (g : colorMix_t) (hw1 hw2 : hw_inputs),
  TOP_OPTION_POS + RED <= p <= TOP_OPTION_POS + BLUE ->
  bottom_edge hw1 = false -> top_edge hw1 = true ->
  bottom_edge hw2 = false -> top_edge hw2 = true ->
  let g1 := guess_color p g hw1 in
  let p1 := guess_arrowPos p g hw1 in
  let g2 := guess_color p1 g1 hw2 in
  p1 = p /\
  hasRed g1 = (if p =? TOP_OPTION_POS + RED then true else hasRed g) /\
  hasGreen g1 = (if p =? TOP_OPTION_POS + GREEN then true else hasGreen g) /\
  hasBlue g1 = (if p =? TOP_OPTION_POS + BLUE then true else hasBlue g) /\
  guess_finished p g hw1 = false /\
  g2 = g1 /\
  (hasRed g2 = hasRed g1 /\ hasGreen g2 = hasGreen g1 /\
   hasBlue g2 = hasBlue g1) /\
  guess_arrowPos p1 g1 hw2 = p /\
  guess_finished p1 g1 hw2 = false.
Proof.
  intros p g hw1 hw2 Hp Hb1 Ht1 Hb2 Ht2. cbv zeta.
  rewrite !guess_finished_eq, !guess_color_eq, !guess_arrowPos_eq.
  rewrite Hb1, Ht1, Hb2, Ht2. cbv zeta.
  unfold TOP_OPTION_POS, RED, GREEN, BLUE in *.
  assert (Hc : p = 1 \/ p = 2 \/ p = 3) by lia.
  destruct g as [r gr b].
  destruct Hc as [-> | [-> | ->]]; repeat split; reflexivity.
Qed.

Lemma guess_select_idempotent_witness :
  (* the Red row *)
  (let g1 := guess_color 1 (mkColorMix false false true) (only_select quiet) in
   hasRed g1 = true /\ hasGreen g1 = false /\ hasBlue g1 = true /\
   guess_color 1 g1 (only_select quiet) = g1) /\
  (* the Green row *)
  (let g1 := guess_color 2 (mkColorMix true false false) (only_select quiet) in
   hasRed g1 = true /\ hasGreen g1 = true /\ hasBlue g1 = false /\
   guess_color 2 g1 (only_select quiet) = g1) /\
  (* the Blue row *)
  (let g1 := guess_color 3 (mkColorMix false true false) (only_select quiet) in
   hasRed g1 = false /\ hasGreen g1 = true /\ hasBlue g1 = true /\
   guess_color 3 g1 (only_select quiet) = g1).
Proof.
  assert (H1 : TOP_OPTION_POS + RED <= 1 <= TOP_OPTION_POS + BLUE)
    by (unfold TOP_OPTION_POS, RED, BLUE; lia).
  assert (H2 : TOP_OPTION_POS + RED <= 2 <= TOP_OPTION_POS + BLUE)
    by (unfold TOP_OPTION_POS, RED, BLUE; lia).
  assert (H3 : TOP_OPTION_POS + RED <= 3 <= TOP_OPTION_POS + BLUE)
    by (unfold TOP_OPTION_POS, RED, BLUE; lia).
  pose proof (guess_select_idempotent 1 (mkColorMix false false true)
                (only_select quiet) (only_select quiet)
                H1 eq_refl eq_refl eq_refl eq_refl) as R.
  pose proof (guess_select_idempotent 2 (mkColorMix true false false)
                (only_select quiet) (only_select quiet)
                H2 eq_refl eq_refl eq_refl eq_refl) as G.
  pose proof (guess_select_idempotent 3 (mkColorMix false true false)
                (only_select quiet) (only_select quiet)
                H3 eq_refl eq_refl eq_refl eq_refl) as B.
  cbv zeta in R, G, B |- *.
  destruct R as (Rp & Rr & Rg & Rb & _ & R2 & _).
  destruct G as (Gp & Gr & Gg & Gb & _ & G2 & _).
  destruct B as (Bp & Br & Bg & Bb & _ & B2 & _).
  rewrite Rp in R2. rewrite Gp in G2. rewrite Bp in B2.
  repeat split; assumption.
Defined.

(** C7: when the move edge and the select edge fire on the same poll of
    [guess], the arrow is moved first and the select is taken on the row the
    arrow is on after the move: the poll leaves the arrow, the guessed mix
    and the completion flag as a move-only poll followed by a select-only
    poll at the row reached would, and the star is drawn on that row.  From
    the Red row the Green flag becomes true, from the Green row the Blue
    flag becomes true, the two other flags staying as they were; from the
    Blue row the End row is reached and the test ends with the mix as it
    was; and from the End row the arrow wraps to the Red row and the Red
    flag becomes true. *)
Theorem guess_move_before_select :
  forall (p : Z) (g : colorMix_t) (hw : hw_inputs),
  bottom_edge hw = true -> top_edge hw = true ->
  let moved := guess_arrowPos p g (only_move hw) in
  let g' := guess_color p g hw in
  guess_color p g (only_move hw) = g /\
  guess_arrowPos p g hw = moved /\
  g' = guess_color moved g (only_select hw) /\
  guess_finished p g hw = guess_finished moved g (only_select hw) /\
  guess_arrowPos moved g (only_select hw) = moved /\
  guess_events p g hw =
    [E_Booster_Bottom_Button_Pushed;
     E_LCDDrawChar p 1 " "; E_LCDDrawChar moved 1 ">";
     E_Booster_Top_Button_Pushed; E_LCDDrawChar moved 9 "*"] /\
  (p = TOP_OPTION_POS + RED ->
   moved = TOP_OPTION_POS + GREEN /\
   (hasRed g' = hasRed g /\ hasGreen g' = true /\ hasBlue g' = hasBlue g) /\
   guess_finished p g hw = false) /\
  (p = TOP_OPTION_POS + GREEN ->
   moved = TOP_OPTION_POS + BLUE /\
   (hasRed g' = hasRed g /\ hasGreen g' = hasGreen g /\ hasBlue g' = true) /\
   guess_finished p g hw = false) /\
  (p = TOP_OPTION_POS + BLUE ->
   moved = TOP_OPTION_POS + END /\
   g' = g /\
   guess_finished p g hw = true) /\
  (p = TOP_OPTION_POS + END ->
   moved = TOP_OPTION_POS + RED /\
   (hasRed g' = true /\ hasGreen g' = hasGreen g /\ hasBlue g' = hasBlue g) /\
   guess_finished p g hw = false).
Proof.
  intros p g hw Hb Ht. cbv zeta.
  rewrite guess_events_eq.
  rewrite !guess_finished_eq, !guess_color_eq, !guess_arrowPos_eq.
  rewrite Hb, Ht. cbn [only_move only_select bottom_edge top_edge app].
  cbv zeta.
  repeat match goal with
         | |- _ /\ _ => split
         end; try reflexivity;
    intros ->; repeat split; reflexivity.
Qed.

Lemma guess_move_before_select_witness :
  let both := mkInputs (0, 0) true true false false in
  (* from the Red row: Green *)
  (guess_arrowPos 1 (mkColorMix true false false) both = 2 /\
   hasRed (guess_color 1 (mkColorMix true false false) both) = true /\
   hasGreen (guess_color 1 (mkColorMix true false false) both) = true /\
   hasBlue (guess_color 1 (mkColorMix true false false) both) = false /\
   guess_finished 1 (mkColorMix true false false) both = false) /\
  (* from the Green row: Blue *)
  (guess_arrowPos 2 (mkColorMix false true false) both = 3 /\
   hasRed (guess_color 2 (mkColorMix false true false) both) = false /\
   hasGreen (guess_color 2 (mkColorMix false true false) both) = true /\
   hasBlue (guess_color 2 (mkColorMix false true false) both) = true /\
   guess_finished 2 (mkColorMix false true false) both = false) /\
  (* from the Blue row: End, the test ends *)
  (guess_arrowPos 3 (mkColorMix false true false) both = 4 /\
   guess_color 3 (mkColorMix false true false) both
     = mkColorMix false true false /\
   guess_finished 3 (mkColorMix false true false) both = true) /\
  (* from the End row: Red *)
  (guess_arrowPos 4 (mkColorMix false false true) both = 1 /\
   hasRed (guess_color 4 (mkColorMix false false true) both) = true /\
   hasGreen (guess_color 4 (mkColorMix false false true) both) = false /\
   hasBlue (guess_color 4 (mkColorMix false false true) both) = true /\
   guess_finished 4 (mkColorMix false false true) both = false).
Proof.
  cbv zeta.
  pose proof (guess_move_before_select 1 (mkColorMix true false false)
                (mkInputs (0, 0) true true false false) eq_refl eq_refl) as H1.
  pose proof (guess_move_before_select 2 (mkColorMix false true false)
                (mkInputs (0, 0) true true false false) eq_refl eq_refl) as H2.
  pose proof (guess_move_before_select 3 (mkColorMix false true false)
                (mkInputs (0, 0) true true false false) eq_refl eq_refl) as H3.
  pose proof (guess_move_before_select 4 (mkColorMix false false true)
                (mkInputs (0, 0) true true false false) eq_refl eq_refl) as H4.
  cbv zeta in H1, H2, H3, H4.
  destruct H1 as (_ & M1 & _ & _ & _ & _ & T1 & _).
  destruct H2 as (_ & M2 & _ & _ & _ & _ & _ & T2 & _).
  destruct H3 as (_ & M3 & _ & _ & _ & _ & _ & _ & T3 & _).
  destruct H4 as (_ & M4 & _ & _ & _ & _ & _ & _ & _ & T4).
  destruct (T1 eq_refl) as (V1 & (R1 & G1 & B1) & F1).
  destruct (T2 eq_refl) as (V2 & (R2 & G2 & B2) & F2).
  destruct (T3 eq_refl) as (V3 & C3 & F3).
  destruct (T4 eq_refl) as (V4 & (R4 & G4 & B4) & F4).
  rewrite <- M1 in V1. rewrite <- M2 in V2.
  rewrite <- M3 in V3. rewrite <- M4 in V4.
  repeat split; assumption.
Defined.

(** ** [testFSM] *)

Lemma randomBit_of_parity : forall vx vy,
  randomBit_of vx vy = xorb (Z.odd vx) (Z.odd vy).
Proof.
  intros vx vy. unfold randomBit_of. rewrite !Zmod_odd.
  destruct (Z.odd vx), (Z.odd vy); reflexivity.
Qed.

Lemma sampled_bit_parity : forall hw, sampled_bit hw = parity_xor hw.
Proof. intros hw. apply randomBit_of_parity. Qed.

Lemma testFSM_reset_eq : forall s hw,
  testFSM_reset s hw =
  (mkTestStatics (actualColor s) all_false RED setup TOP_OPTION_POS,
   reset_events).
Proof. intros [a g c t p] hw. reflexivity. Qed.

(** A call with [newTest] is the new-test block followed by a call without
    it. *)
Lemma testFSM_newTest_eq : forall r s hw,
  testFSM true r s hw =
  (fst (testFSM false r (fst (testFSM_reset s hw)) hw),
   reset_events ++ snd (testFSM false r (fst (testFSM_reset s hw)) hw)).
Proof.
  intros r [a g c t p] hw. unfold testFSM. unfold bind at 1.
  rewrite testFSM_reset_eq. cbn [fst snd].
  unfold bind, ret.
  destruct (testFSM_switch _ hw) as [[f s'] tr].
  cbn [fst snd]. rewrite app_nil_r. reflexivity.
Qed.

Lemma testFSM_setup_RED : forall r a g p hw,
  testFSM false r (mkTestStatics a g RED setup p) hw =
  (false, r, mkTestStatics (set_hasRed a (sampled_bit hw)) g GREEN setup p,
   [E_getSampleJoyStick]).
Proof. intros r a g p [[vx vy] b t e r0]. reflexivity. Qed.

Lemma testFSM_setup_GREEN : forall r a g p hw,
  testFSM false r (mkTestStatics a g GREEN setup p) hw =
  (false, r, mkTestStatics (set_hasGreen a (sampled_bit hw)) g BLUE setup p,
   [E_getSampleJoyStick]).
Proof. intros r a g p [[vx vy] b t e r0]. reflexivity. Qed.

Lemma testFSM_setup_BLUE : forall r a g p hw,
  testFSM false r (mkTestStatics a g BLUE setup p) hw =
  (false, r, mkTestStatics (set_hasBlue a (sampled_bit hw)) g END setup p,
   [E_getSampleJoyStick]).
Proof. intros r a g p [[vx vy] b t e r0]. reflexivity. Qed.

Lemma testFSM_setup_past_BLUE : forall r a g p hw,
  testFSM false r (mkTestStatics a g END setup p) hw =
  (false, r, mkTestStatics a g 4 lightup p, [E_getSampleJoyStick]).
Proof. intros r a g p [[vx vy] b t e r0]. reflexivity. Qed.

Lemma testFSM_lightup : forall r a g c p hw,
  testFSM false r (mkTestStatics a g c lightup p) hw =
  (false, r, mkTestStatics a g c testing p, lightup_events a).
Proof. intros r [[] [] []] g c p hw; reflexivity. Qed.

Lemma testFSM_testing : forall r a g c p hw,
  testFSM false r (mkTestStatics a g c testing p) hw =
  (guess_finished p g hw,
   (if guess_finished p g hw then match_ (guess_color p g hw) a else r),
   mkTestStatics a (guess_color p g hw) c testing (guess_arrowPos p g hw),
   guess_events p g hw).
Proof.
  intros r a g c p hw.
  unfold guess_finished, guess_color, guess_arrowPos, guess_events.
  unfold testFSM, testFSM_switch, bind, ret. cbn [testState arrowPos guessColor].
  destruct (guess p g hw) as [[[f p'] g'] tr]. cbn [fst snd].
  rewrite !app_nil_r. reflexivity.
Qed.

(** What the new-test block does reset: in every call of [testFSM] with
    [newTest] true it leaves the guessed mix all-false, the arrow on the
    first selectable row, the state at [setup] and the colour cursor at Red,
    and commands the three LEDs off, whatever the statics held. *)
Lemma testFSM_reset_block :
  forall (s : testFSM_statics) (r : bool) (hw : hw_inputs),
  let s' := fst (testFSM_reset s hw) in
  guessColor s' = all_false /\
  arrowPos s' = TOP_OPTION_POS /\
  testState s' = setup /\
  colorIndex s' = RED /\
  snd (testFSM_reset s hw) =
    [E_TurnOFF_Booster_Blue_LED; E_TurnOFF_Booster_Green_LED;
     E_TurnOFF_Booster_Red_LED] /\
  testFSM_statics_after true r s hw = testFSM_statics_after false r s' hw /\
  testFSM_events true r s hw =
    snd (testFSM_reset s hw) ++ testFSM_events false r s' hw.
Proof.
  intros s r hw. cbv zeta.
  unfold testFSM_statics_after, testFSM_events.
  rewrite testFSM_newTest_eq, testFSM_reset_eq. cbn [fst snd].
  repeat split; reflexivity.
Qed.

(** C1: after the new-test block both mixes are to be all-false, and the
    source says that all the static variables are reset; the block never
    assigns [actualColor].  The run [second_test_run] goes from power-up
    through a first test, whose actual mix is Red and Blue, to the start of
    a second one: [newTest] is up and the statics of [testFSM] are those the
    first test left.  The new-test block, run on them, resets the guessed
    mix, the arrow, the state and the colour cursor, and the actual mix is
    still Red and Blue, not all-false; after the whole first poll of the
    second test, which draws an even sample for Red, Blue is still set. *)
Theorem testFSM_reset_misses_actualColor :
  let s := fst (main_loop ScreensFSM_init second_test_run) in
  let after_block := fst (testFSM_reset (test s) quiet) in
  (state s = TEST /\ newTest s = true) /\
  test s = mkTestStatics (mkColorMix true false true) all_false 4 testing 4 /\
  (guessColor after_block = all_false /\
   arrowPos after_block = TOP_OPTION_POS /\
   testState after_block = setup /\
   colorIndex after_block = RED) /\
  actualColor after_block = mkColorMix true false true /\
  actualColor after_block <> all_false /\
  actualColor (test (fst (ScreensFSM s quiet))) = mkColorMix false false true.
Proof.
  cbv zeta.
  repeat match goal with
         | |- _ /\ _ => split
         end; try (vm_compute; reflexivity).
  vm_compute. discriminate.
Qed.

(** C3: the three polls of [testFSM] that follow a new-test signal each
    read the joystick once, draw one bit, the exclusive-or of the parities
    of the two magnitudes read, and store it in one channel of the actual
    mix, Red then Green then Blue, leaving the two other channels alone;
    after the third poll the actual mix is made of the three bits drawn. *)
Theorem testFSM_setup_assigns_channels :
  forall (s : testFSM_statics) (r1 r2 r3 : bool) (hw1 hw2 hw3 : hw_inputs),
  let s1 := testFSM_statics_after true r1 s hw1 in
  let s2 := testFSM_statics_after false r2 s1 hw2 in
  let s3 := testFSM_statics_after false r3 s2 hw3 in
  sampled_bit hw1 = parity_xor hw1 /\
  sampled_bit hw2 = parity_xor hw2 /\
  sampled_bit hw3 = parity_xor hw3 /\
  actualColor s1 = set_hasRed (actualColor s) (sampled_bit hw1) /\
  actualColor s2 = set_hasGreen (actualColor s1) (sampled_bit hw2) /\
  actualColor s3 = set_hasBlue (actualColor s2) (sampled_bit hw3) /\
  actualColor s3 =
    mkColorMix (parity_xor hw1) (parity_xor hw2) (parity_xor hw3) /\
  testFSM_events true r1 s hw1 = reset_events ++ [E_getSampleJoyStick] /\
  testFSM_events false r2 s1 hw2 = [E_getSampleJoyStick] /\
  testFSM_events false r3 s2 hw3 = [E_getSampleJoyStick] /\
  testState s1 = setup /\ testState s2 = setup /\ testState s3 = setup /\
  testFSM_finished true r1 s hw1 = false /\
  testFSM_finished false r2 s1 hw2 = false /\
  testFSM_finished false r3 s2 hw3 = false.
Proof.
  intros s r1 r2 r3 hw1 hw2 hw3. cbv zeta.
  unfold testFSM_statics_after, testFSM_events, testFSM_finished.
  rewrite !testFSM_newTest_eq, !testFSM_reset_eq. cbn [fst snd].
  rewrite !testFSM_setup_RED. cbn [fst snd].
  rewrite !testFSM_setup_GREEN. cbn [fst snd].
  rewrite !testFSM_setup_BLUE. cbn [fst snd actualColor testState].
  rewrite <- !sampled_bit_parity.
  repeat split; reflexivity.
Qed.

(** C8: in the [testing] state a poll of [testFSM] without a new-test
    signal is a poll of [guess] on the arrow position and the guessed mix:
    it makes the calls [guess] makes, stores the position and the mix
    [guess] hands back, and returns the flag [guess] returns.  When the flag
    is true the result location holds [match] of the guessed and the actual
    mix, which is true exactly when the two mixes are equal; when it is
    false the result location holds what it held.  The state stays
    [testing] and the actual mix is not changed. *)
Theorem testFSM_testing_delegates_to_guess :
  forall (r : bool) (s : testFSM_statics) (hw : hw_inputs),
  testState s = testing ->
  let s' := testFSM_statics_after false r s hw in
  let finished := testFSM_finished false r s hw in
  let result := testFSM_result false r s hw in
  finished = guess_finished (arrowPos s) (guessColor s) hw /\
  testFSM_events false r s hw = guess_events (arrowPos s) (guessColor s) hw /\
  arrowPos s' = guess_arrowPos (arrowPos s) (guessColor s) hw /\
  guessColor s' = guess_color (arrowPos s) (guessColor s) hw /\
  actualColor s' = actualColor s /\
  colorIndex s' = colorIndex s /\
  testState s' = testing /\
  (finished = true ->
   result = match_ (guessColor s') (actualColor s') /\
   (result = true <-> guessColor s' = actualColor s')) /\
  (finished = false -> result = r).
Proof.
  intros r [a g c t p] hw Ht. cbn [testState] in Ht. subst t. cbv zeta.
  unfold testFSM_statics_after, testFSM_finished, testFSM_result,
         testFSM_events.
  rewrite testFSM_testing.
  cbn [fst snd arrowPos guessColor actualColor colorIndex testState].
  repeat split; try reflexivity.
  - rewrite H. reflexivity.
  - rewrite H. apply match_true_iff.
  - rewrite H. apply match_true_iff.
  - intros H. rewrite H. reflexivity.
Qed.

Lemma testFSM_testing_delegates_to_guess_witness :
  let s := mkTestStatics (mkColorMix true false true)
                         (mkColorMix true false false) 4 testing 4 in
  testFSM_finished false true s (only_select quiet) = true /\
  testFSM_result false true s (only_select quiet) = false /\
  testFSM_finished false true s quiet = false /\
  testFSM_result false true s quiet = true.
Proof.
  cbv zeta.
  pose proof (testFSM_testing_delegates_to_guess true
    (mkTestStatics (mkColorMix true false true)
                   (mkColorMix true false false) 4 testing 4)
    (only_select quiet) eq_refl) as H1.
  pose proof (testFSM_testing_delegates_to_guess true
    (mkTestStatics (mkColorMix true false true)
                   (mkColorMix true false false) 4 testing 4)
    quiet eq_refl) as H2.
  cbv zeta in H1, H2.
  destruct H1 as (Hf1 & _ & _ & _ & _ & _ & _ & Hr1 & _).
  destruct H2 as (Hf2 & _ & _ & _ & _ & _ & _ & _ & Hr2).
  split; [exact Hf1 |].
  split; [exact (proj1 (Hr1 Hf1)) |].
  split; [exact Hf2 | exact (Hr2 Hf2)].
Defined.

(** C10: from a new-test signal the [setup] state takes four polls.  The
    first three store a bit in Red, Green and Blue; the fourth still reads
    the joystick, stores nothing in the actual mix and moves the state to
    [lightup]; no LED is turned on during these four polls, and the fifth
    poll turns on the LEDs of the channels of the actual mix and moves to
    [testing]. *)
Theorem testFSM_setup_takes_four_polls :
  forall (s : testFSM_statics) (r1 r2 r3 r4 r5 : bool)
         (hw1 hw2 hw3 hw4 hw5 : hw_inputs),
  let s1 := testFSM_statics_after true r1 s hw1 in
  let s2 := testFSM_statics_after false r2 s1 hw2 in
  let s3 := testFSM_statics_after false r3 s2 hw3 in
  let s4 := testFSM_statics_after false r4 s3 hw4 in
  let s5 := testFSM_statics_after false r5 s4 hw5 in
  let tr1 := testFSM_events true r1 s hw1 in
  let tr2 := testFSM_events false r2 s1 hw2 in
  let tr3 := testFSM_events false r3 s2 hw3 in
  let tr4 := testFSM_events false r4 s3 hw4 in
  let tr5 := testFSM_events false r5 s4 hw5 in
  (testState s1 = setup /\ testState s2 = setup /\ testState s3 = setup) /\
  testState s4 = lightup /\
  testState s5 = testing /\
  actualColor s3 =
    mkColorMix (sampled_bit hw1) (sampled_bit hw2) (sampled_bit hw3) /\
  s4 = mkTestStatics (actualColor s3) (guessColor s3) 4 lightup
                     (arrowPos s3) /\
  actualColor s5 = actualColor s3 /\
  tr4 = [E_getSampleJoyStick] /\
  existsb is_TurnON (tr1 ++ tr2 ++ tr3 ++ tr4) = false /\
  tr5 = lightup_events (actualColor s3) /\
  (testFSM_finished true r1 s hw1 = false /\
   testFSM_finished false r2 s1 hw2 = false /\
   testFSM_finished false r3 s2 hw3 = false /\
   testFSM_finished false r4 s3 hw4 = false /\
   testFSM_finished false r5 s4 hw5 = false).
Proof.
  intros s r1 r2 r3 r4 r5 hw1 hw2 hw3 hw4 hw5. cbv zeta.
  unfold testFSM_statics_after, testFSM_events, testFSM_finished.
  rewrite !testFSM_newTest_eq, !testFSM_reset_eq. cbn [fst snd].
  rewrite !testFSM_setup_RED. cbn [fst snd].
  rewrite !testFSM_setup_GREEN. cbn [fst snd].
  rewrite !testFSM_setup_BLUE. cbn [fst snd].
  rewrite !testFSM_setup_past_BLUE. cbn [fst snd].
  rewrite !testFSM_lightup. cbn [fst snd actualColor testState].
  repeat split; reflexivity.
Qed.

(** ** [ScreensFSM] *)

Lemma ScreensFSM_INCEPTION_eq : forall nt t hw,
  ScreensFSM (mkScreenStatics INCEPTION nt t) hw =
  (mkScreenStatics OPENING nt t,
   timer_start_events OPENING_WAIT ++ snd (DrawOpeningScreen quiet)).
Proof. intros nt t hw. reflexivity. Qed.

Lemma ScreensFSM_OPENING_eq : forall nt t hw,
  ScreensFSM (mkScreenStatics OPENING nt t) hw =
  if timer_expired hw then
    (mkScreenStatics INSTRUCTIONS nt t,
     E_OneShotSWTimerExpired :: instructions_screen_events)
  else (mkScreenStatics OPENING nt t, [E_OneShotSWTimerExpired]).
Proof.
  intros nt t hw. unfold ScreensFSM, ScreensFSM_switch.
  cbn [state]. unfold bind at 1. unfold bind at 1.
  unfold OneShotSWTimerExpired, query.
  destruct (timer_expired hw); reflexivity.
Qed.

Lemma ScreensFSM_TEST_eq : forall nt t hw,
  ScreensFSM (mkScreenStatics TEST nt t) hw =
  let r := result_on_entry hw in
  if testFSM_finished nt r t hw then
    (mkScreenStatics TESTEND false (testFSM_statics_after nt r t hw),
     testFSM_events nt r t hw ++ timer_start_events OPENING_WAIT ++
     snd (DrawEndTestScreen (testFSM_result nt r t hw) quiet))
  else
    (mkScreenStatics TEST false (testFSM_statics_after nt r t hw),
     testFSM_events nt r t hw).
Proof.
  intros nt t hw. cbv zeta.
  unfold testFSM_finished, testFSM_statics_after, testFSM_events,
         testFSM_result.
  unfold ScreensFSM, ScreensFSM_switch.
  cbn [state newTest test]. unfold bind at 1. unfold bind at 1.
  destruct (testFSM nt (result_on_entry hw) t hw) as [[[f r] t'] tr].
  cbn [fst snd].
  destruct f, r; cbn; rewrite ?app_nil_r; reflexivity.
Qed.

(** On every transition from [TEST] to [TESTEND] the timer is started with
    [OPENING_WAIT], the wait of the opening screen. *)
Lemma ScreensFSM_TESTEND_timer : forall s hw,
  state s = TEST ->
  state (fst (ScreensFSM s hw)) = TESTEND ->
  exists tr1 tr2,
    snd (ScreensFSM s hw) = tr1 ++ timer_start_events OPENING_WAIT ++ tr2.
Proof.
  intros [st nt t] hw Hs. cbn [state] in Hs. subst st.
  rewrite ScreensFSM_TEST_eq. cbv zeta.
  destruct (testFSM_finished nt (result_on_entry hw) t hw); cbn [fst snd state].
  - intros _. eexists. eexists. reflexivity.
  - discriminate.
Qed.

(** C2: the end screen is to wait longer than the opening screen, and the
    source defines [ENDTEST_WAIT] for it.  In the run [endtest_run], which
    goes from power-up to the end of a test, the timer is started twice, on
    [INCEPTION] to [OPENING] and on [TEST] to [TESTEND], and both times
    with [OPENING_WAIT]; [ENDTEST_WAIT], the longer wait, is never used. *)
Theorem ScreensFSM_endtest_timer_wait :
  state (fst (main_loop ScreensFSM_init endtest_run)) = TESTEND /\
  map state (main_loop_states ScreensFSM_init endtest_run) =
    [OPENING; INSTRUCTIONS; TEST; TEST; TEST; TEST; TEST; TEST; TEST; TEST;
     TEST; TESTEND] /\
  filter is_InitOneShotSWTimer (snd (main_loop ScreensFSM_init endtest_run)) =
    [E_InitOneShotSWTimer TIMER32_1_BASE OPENING_WAIT;
     E_InitOneShotSWTimer TIMER32_1_BASE OPENING_WAIT] /\
  OPENING_WAIT < ENDTEST_WAIT.
Proof.
  repeat split; vm_compute; reflexivity.
Qed.

Lemma ScreensFSM_OPENING_step : forall s hw,
  state s = OPENING ->
  fst (ScreensFSM s hw) =
  if timer_expired hw
  then mkScreenStatics INSTRUCTIONS (newTest s) (test s)
  else s.
Proof.
  intros [st nt t] hw Hs. cbn [state] in Hs. subst st.
  rewrite ScreensFSM_OPENING_eq.
  destruct (timer_expired hw); reflexivity.
Qed.

(** C9: from the [OPENING] state, over polls on which the timer reports
    not expired the statics are left as they are, so the state is [OPENING]
    after each of them; on the first poll on which the timer reports expired
    the state becomes [INSTRUCTIONS], and the instructions screen is drawn
    on that poll. *)
Theorem ScreensFSM_opening_until_timer_expires :
  forall (s : ScreensFSM_statics) (waiting : list hw_inputs) (hw : hw_inputs),
  state s = OPENING ->
  Forall (fun h => timer_expired h = false) waiting ->
  timer_expired hw = true ->
  Forall (fun s' => state s' = OPENING) (main_loop_states s waiting) /\
  fst (main_loop s waiting) = s /\
  main_loop_states s (waiting ++ [hw]) =
    repeat s (List.length waiting) ++
    [mkScreenStatics INSTRUCTIONS (newTest s) (test s)] /\
  state (fst (main_loop s (waiting ++ [hw]))) = INSTRUCTIONS /\
  snd (ScreensFSM (fst (main_loop s waiting)) hw) =
    E_OneShotSWTimerExpired :: instructions_screen_events.
Proof.
  intros s waiting hw Hs Hw He.
  induction Hw as [| h waiting Hh Hw IH].
  - cbn [main_loop_states main_loop app List.length repeat fst].
    destruct s as [st nt t]. cbn [state] in Hs. subst st.
    rewrite ScreensFSM_OPENING_eq, He. cbn [fst snd state newTest test].
    repeat split; constructor.
  - destruct IH as (IH1 & IH2 & IH3 & IH4 & IH5).
    pose proof (ScreensFSM_OPENING_step s h Hs) as Hstep.
    rewrite Hh in Hstep.
    cbn [main_loop_states main_loop app List.length repeat].
    rewrite Hstep.
    destruct (ScreensFSM s h) as [s1 tr1] eqn:E1. cbn [fst] in Hstep.
    subst s1.
    destruct (main_loop s waiting) as [s2 tr2] eqn:E2.
    destruct (main_loop s (waiting ++ [hw])) as [s3 tr3] eqn:E3.
    cbn [fst snd] in *.
    repeat split; try assumption.
    + constructor; assumption.
    + rewrite IH3. reflexivity.
Qed.

Lemma ScreensFSM_opening_until_timer_expires_witness :
  state (fst (main_loop (mkScreenStatics OPENING false testFSM_init)
                        ([quiet; quiet] ++ [expired]))) = INSTRUCTIONS /\
  Forall (fun s' => state s' = OPENING)
         (main_loop_states (mkScreenStatics OPENING false testFSM_init)
                           [quiet; quiet]).
Proof.
  assert (Hq : Forall (fun h => timer_expired h = false) [quiet; quiet])
    by (repeat constructor).
  destruct (ScreensFSM_opening_until_timer_expires
              (mkScreenStatics OPENING false testFSM_init)
              [quiet; quiet] expired eq_refl Hq eq_refl)
    as (H1 & _ & _ & H4 & _).
  split; [exact H4 | exact H1].
Defined.

(** * Further properties *)

(** ** [guess]: what a poll can and cannot do *)

(** [guess] keeps the arrow on the menu. *)
Lemma guess_arrowPos_in_rows : forall p g hw,
  TOP_OPTION_POS <= p <= BOTTOM_OPTION_POS ->
  TOP_OPTION_POS <= guess_arrowPos p g hw <= BOTTOM_OPTION_POS.
Proof.
  intros p g hw Hp. rewrite guess_arrowPos_eq.
  unfold TOP_OPTION_POS, BOTTOM_OPTION_POS in *.
  rewrite (uint_small (p + 1)) by (unfold UINT_MOD; lia).
  destruct (bottom_edge hw); [| lia].
  destruct (Z.gtb_spec (p + 1) 4); lia.
Qed.

Lemma guess_color_keeps_flags : forall p g hw,
  implb (hasRed g) (hasRed (guess_color p g hw)) = true /\
  implb (hasGreen g) (hasGreen (guess_color p g hw)) = true /\
  implb (hasBlue g) (hasBlue (guess_color p g hw)) = true.
Proof.
  intros p [r gr b] hw. rewrite !guess_color_eq. cbv zeta.
  destruct (top_edge hw); cbn [hasRed hasGreen hasBlue];
    repeat match goal with
           | |- context [if ?c =? ?d then _ else _] => destruct (c =? d)
           end;
    destruct r, gr, b; repeat split; reflexivity.
Qed.

(** X1: a poll of [guess] never clears a flag of the guessed mix: a flag
    that is true stays true, whatever the arrow position and the buttons (a
    selection cannot be undone); without a select edge the mix is left as it
    is, and a poll that reports completion leaves it as it is too. *)
Theorem guess_never_clears_a_flag :
  forall (p : Z) (g : colorMix_t) (hw : hw_inputs),
  implb (hasRed g) (hasRed (guess_color p g hw)) = true /\
  implb (hasGreen g) (hasGreen (guess_color p g hw)) = true /\
  implb (hasBlue g) (hasBlue (guess_color p g hw)) = true /\
  guess_color p g (mkInputs (joystick hw) (bottom_edge hw) false
                            (timer_expired hw) (result_on_entry hw)) = g /\
  (if guess_finished p g hw then match_ (guess_color p g hw) g else true)
    = true.
Proof.
  intros p g hw.
  destruct (guess_color_keeps_flags p g hw) as (Hr & Hg & Hb).
  repeat split; try assumption.
  - rewrite guess_color_eq. reflexivity.
  - rewrite guess_finished_eq, guess_color_eq. cbv zeta.
    destruct (top_edge hw); [| reflexivity].
    repeat match goal with
           | |- context [if ?c =? ?d then _ else _] => destruct (c =? d)
           end; try reflexivity.
    now apply match_true_iff.
Qed.

(** X2: with the arrow on a row of the menu, [guess] reports completion
    exactly when the select edge fires with the arrow, after the move if
    any, on the End row; and each flag of the guessed mix after the poll is
    its value before, or true when the select edge fires with the arrow on
    the row of that channel. *)
Theorem guess_finishes_on_End_row :
  forall (p : Z) (g : colorMix_t) (hw : hw_inputs),
  TOP_OPTION_POS <= p <= BOTTOM_OPTION_POS ->
  guess_finished p g hw =
    (top_edge hw && (guess_arrowPos p g hw =? TOP_OPTION_POS + END))%bool /\
  hasRed (guess_color p g hw) =
    (hasRed g ||
     (top_edge hw && (guess_arrowPos p g hw =? TOP_OPTION_POS + RED)))%bool /\
  hasGreen (guess_color p g hw) =
    (hasGreen g ||
     (top_edge hw && (guess_arrowPos p g hw =? TOP_OPTION_POS + GREEN)))%bool /\
  hasBlue (guess_color p g hw) =
    (hasBlue g ||
     (top_edge hw && (guess_arrowPos p g hw =? TOP_OPTION_POS + BLUE)))%bool.
Proof.
  intros p [r gr b] hw Hp.
  pose proof (guess_arrowPos_in_rows p (mkColorMix r gr b) hw Hp) as Hq.
  rewrite guess_finished_eq, guess_color_eq. cbv zeta.
  set (q := guess_arrowPos p (mkColorMix r gr b) hw) in *.
  unfold TOP_OPTION_POS, BOTTOM_OPTION_POS, RED, GREEN, BLUE, END in *.
  assert (Hc : q = 1 \/ q = 2 \/ q = 3 \/ q = 4) by lia.
  destruct (top_edge hw);
    destruct Hc as [-> | [-> | [-> | ->]]];
    destruct r, gr, b; repeat split; reflexivity.
Qed.

Lemma guess_finishes_on_End_row_witness :
  guess_finished 3 all_false (mkInputs (0, 0) true true false false) = true /\
  guess_finished 4 all_false (mkInputs (0, 0) true true false false) = false.
Proof.
  assert (H3 : TOP_OPTION_POS <= 3 <= BOTTOM_OPTION_POS)
    by (unfold TOP_OPTION_POS, BOTTOM_OPTION_POS; lia).
  assert (H4 : TOP_OPTION_POS <= 4 <= BOTTOM_OPTION_POS)
    by (unfold TOP_OPTION_POS, BOTTOM_OPTION_POS; lia).
  split.
  - exact (proj1 (guess_finishes_on_End_row 3 all_false
                    (mkInputs (0, 0) true true false false) H3)).
  - exact (proj1 (guess_finishes_on_End_row 4 all_false
                    (mkInputs (0, 0) true true false false) H4)).
Defined.

(** A poll of [guess] with the move edge alone, from a row of the menu. *)
Lemma guess_move_only : forall p g hw,
  TOP_OPTION_POS <= p <= BOTTOM_OPTION_POS ->
  bottom_edge hw = true -> top_edge hw = false ->
  guess_finished p g hw = false /\
  guess_color p g hw = g /\
  guess_arrowPos p g hw =
    (if p =? BOTTOM_OPTION_POS then TOP_OPTION_POS else p + 1) /\
  guess_events p g hw =
    [E_Booster_Bottom_Button_Pushed; E_LCDDrawChar p 1 " ";
     E_LCDDrawChar
       (if p =? BOTTOM_OPTION_POS then TOP_OPTION_POS else p + 1) 1 ">";
     E_Booster_Top_Button_Pushed].
Proof.
  intros p g hw Hp Hb Ht.
  rewrite guess_events_eq, guess_finished_eq, guess_color_eq,
          guess_arrowPos_eq, Hb, Ht.
  unfold TOP_OPTION_POS, BOTTOM_OPTION_POS in *.
  assert (Hc : p = 1 \/ p = 2 \/ p = 3 \/ p = 4) by lia.
  destruct Hc as [-> | [-> | [-> | ->]]]; repeat split; reflexivity.
Qed.

(** X3: from any row of the menu four move-only polls of [guess] bring the
    arrow back to the row it started from, and not earlier; none of the four
    changes the guessed mix or reports completion. *)
Theorem guess_four_moves_cycle :
  forall (p : Z) (g : colorMix_t) (hw1 hw2 hw3 hw4 : hw_inputs),
  TOP_OPTION_POS <= p <= BOTTOM_OPTION_POS ->
  bottom_edge hw1 = true -> top_edge hw1 = false ->
  bottom_edge hw2 = true -> top_edge hw2 = false ->
  bottom_edge hw3 = true -> top_edge hw3 = false ->
  bottom_edge hw4 = true -> top_edge hw4 = false ->
  let p1 := guess_arrowPos p g hw1 in
  let p2 := guess_arrowPos p1 g hw2 in
  let p3 := guess_arrowPos p2 g hw3 in
  let p4 := guess_arrowPos p3 g hw4 in
  p4 = p /\
  (p1 <> p /\ p2 <> p /\ p3 <> p) /\
  (guess_color p g hw1 = g /\ guess_color p1 g hw2 = g /\
   guess_color p2 g hw3 = g /\ guess_color p3 g hw4 = g) /\
  (guess_finished p g hw1 = false /\ guess_finished p1 g hw2 = false /\
   guess_finished p2 g hw3 = false /\ guess_finished p3 g hw4 = false).
Proof.
  intros p g hw1 hw2 hw3 hw4 Hp Hb1 Ht1 Hb2 Ht2 Hb3 Ht3 Hb4 Ht4. cbv zeta.
  rewrite !guess_finished_eq, !guess_color_eq, !guess_arrowPos_eq.
  rewrite Hb1, Ht1, Hb2, Ht2, Hb3, Ht3, Hb4, Ht4.
  unfold TOP_OPTION_POS, BOTTOM_OPTION_POS in *.
  assert (Hc : p = 1 \/ p = 2 \/ p = 3 \/ p = 4) by lia.
  destruct Hc as [-> | [-> | [-> | ->]]]; cbn;
    repeat split; try reflexivity; discriminate.
Qed.

Lemma guess_four_moves_cycle_witness :
  guess_arrowPos
    (guess_arrowPos
       (guess_arrowPos
          (guess_arrowPos 2 all_false (only_move quiet))
          all_false (only_move quiet))
       all_false (only_move quiet))
    all_false (only_move quiet) = 2.
Proof.
  assert (H2 : TOP_OPTION_POS <= 2 <= BOTTOM_OPTION_POS)
    by (unfold TOP_OPTION_POS, BOTTOM_OPTION_POS; lia).
  exact (proj1 (guess_four_moves_cycle 2 all_false
                  (only_move quiet) (only_move quiet) (only_move quiet)
                  (only_move quiet) H2 eq_refl eq_refl eq_refl eq_refl
                  eq_refl eq_refl eq_refl eq_refl)).
Defined.

(** X4: the [default] branch of the [switch] on the choice: a select with
    the arrow on any position that is not a row of Red, Green or Blue (the
    End row, but also 0 and every larger value of an [unsigned int]) reports
    completion, leaves the guessed mix and the arrow as they are, and draws
    the star at that position. *)
Theorem guess_select_off_the_menu :
  forall (p : Z) (g : colorMix_t) (hw : hw_inputs),
  0 <= p < UINT_MOD ->
  ~ (TOP_OPTION_POS + RED <= p <= TOP_OPTION_POS + BLUE) ->
  bottom_edge hw = false -> top_edge hw = true ->
  guess_finished p g hw = true /\
  guess_color p g hw = g /\
  guess_arrowPos p g hw = p /\
  guess_events p g hw =
    [E_Booster_Bottom_Button_Pushed; E_Booster_Top_Button_Pushed;
     E_LCDDrawChar p 9 "*"].
Proof.
  intros p g hw Hp Hn Hb Ht.
  rewrite guess_events_eq, guess_finished_eq, guess_color_eq,
          guess_arrowPos_eq.
  rewrite Hb, Ht. cbv zeta.
  unfold TOP_OPTION_POS, RED, GREEN, BLUE, UINT_MOD in *.
  assert (Hc : p = 0 \/ 4 <= p) by lia.
  destruct Hc as [-> | Hc].
  - repeat split; reflexivity.
  - rewrite (uint_small (p - 1)) by (unfold UINT_MOD; lia).
    destruct (Z.eqb_spec (p - 1) 0); [lia |].
    destruct (Z.eqb_spec (p - 1) 1); [lia |].
    destruct (Z.eqb_spec (p - 1) 2); [lia |].
    repeat split; reflexivity.
Qed.

Lemma guess_select_off_the_menu_witness :
  guess_finished 0 all_false (only_select quiet) = true /\
  guess_finished 4 all_false (only_select quiet) = true /\
  guess_finished 4294967295 all_false (only_select quiet) = true.
Proof.
  assert (H0 : 0 <= 0 < UINT_MOD) by (unfold UINT_MOD; lia).
  assert (H4 : 0 <= 4 < UINT_MOD) by (unfold UINT_MOD; lia).
  assert (Hm : 0 <= 4294967295 < UINT_MOD) by (unfold UINT_MOD; lia).
  assert (N0 : ~ (TOP_OPTION_POS + RED <= 0 <= TOP_OPTION_POS + BLUE))
    by (unfold TOP_OPTION_POS, RED, BLUE; lia).
  assert (N4 : ~ (TOP_OPTION_POS + RED <= 4 <= TOP_OPTION_POS + BLUE))
    by (unfold TOP_OPTION_POS, RED, BLUE; lia).
  assert (Nm : ~ (TOP_OPTION_POS + RED <= 4294967295
                  <= TOP_OPTION_POS + BLUE))
    by (unfold TOP_OPTION_POS, RED, BLUE; lia).
  split; [| split].
  - exact (proj1 (guess_select_off_the_menu 0 all_false (only_select quiet)
                    H0 N0 eq_refl eq_refl)).
  - exact (proj1 (guess_select_off_the_menu 4 all_false (only_select quiet)
                    H4 N4 eq_refl eq_refl)).
  - exact (proj1 (guess_select_off_the_menu 4294967295 all_false
                    (only_select quiet) Hm Nm eq_refl eq_refl)).
Defined.

(** ** [testFSM]: every state *)

(** A poll in the [setup] state, for any value of the colour cursor. *)
Lemma testFSM_setup : forall r a g c p hw,
  testFSM false r (mkTestStatics a g c setup p) hw =
  (false, r,
   mkTestStatics
     (if c =? RED then set_hasRed a (sampled_bit hw)
      else if c =? GREEN then set_hasGreen a (sampled_bit hw)
      else if c =? BLUE then set_hasBlue a (sampled_bit hw)
      else a)
     g (uint (c + 1))
     (if (c =? RED) || (c =? GREEN) || (c =? BLUE) then setup else lightup)
     p,
   [E_getSampleJoyStick]).
Proof.
  intros r a g c p [[vx vy] b t e r0].
  unfold testFSM, testFSM_switch, bind, ret, getSampleJoyStick, query,
         sampled_bit.
  cbn [testState colorIndex actualColor joystick fst snd].
  destruct (c =? RED); [reflexivity |].
  destruct (c =? GREEN); [reflexivity |].
  destruct (c =? BLUE); reflexivity.
Qed.

Lemma testFSM_finished_eq : forall nt r s hw,
  testFSM_finished nt r s hw =
  (negb nt && is_testing (testState s) &&
   guess_finished (arrowPos s) (guessColor s) hw)%bool.
Proof.
  intros nt r [a g c t p] hw. unfold testFSM_finished.
  destruct nt.
  - rewrite testFSM_newTest_eq, testFSM_reset_eq. cbn [fst snd actualColor].
    rewrite testFSM_setup_RED. reflexivity.
  - destruct t; cbn [testState is_testing arrowPos guessColor negb andb].
    + rewrite testFSM_setup. reflexivity.
    + rewrite testFSM_lightup. reflexivity.
    + rewrite testFSM_testing. reflexivity.
Qed.

(** X5: [testFSM] returns true only on a poll without the new-test signal,
    in the [testing] state, on which [guess] reports completion; the result
    location then holds [match] of the guessed and the actual mix, and on
    every other poll, in every state, it holds what it held before. *)
Theorem testFSM_finished_only_in_testing :
  forall (nt r : bool) (s : testFSM_statics) (hw : hw_inputs),
  testFSM_finished nt r s hw =
    (negb nt && is_testing (testState s) &&
     guess_finished (arrowPos s) (guessColor s) hw)%bool /\
  testFSM_result nt r s hw =
    (if testFSM_finished nt r s hw
     then match_ (guessColor (testFSM_statics_after nt r s hw))
                 (actualColor (testFSM_statics_after nt r s hw))
     else r).
Proof.
  intros nt r [a g c t p] hw.
  unfold testFSM_finished, testFSM_result, testFSM_statics_after.
  destruct nt.
  - rewrite testFSM_newTest_eq, testFSM_reset_eq. cbn [fst snd actualColor].
    rewrite testFSM_setup_RED. split; reflexivity.
  - destruct t; cbn [testState is_testing arrowPos guessColor negb andb].
    + rewrite testFSM_setup. split; reflexivity.
    + rewrite testFSM_lightup. split; reflexivity.
    + rewrite testFSM_testing. cbn [fst snd guessColor actualColor].
      split; reflexivity.
Qed.

(** X6: without the new-test signal a poll of [testFSM] leaves the state
    where it is or moves it one step along [setup], [lightup], [testing],
    never backwards; with the new-test signal the poll ends in [setup]. *)
Theorem testFSM_phase_monotone :
  forall (r : bool) (s : testFSM_statics) (hw : hw_inputs),
  let s' := testFSM_statics_after false r s hw in
  phase_rank (testState s) <= phase_rank (testState s') <=
    phase_rank (testState s) + 1 /\
  testState (testFSM_statics_after true r s hw) = setup.
Proof.
  intros r [a g c t p] hw. cbv zeta. unfold testFSM_statics_after.
  split.
  - destruct t; cbn [testState].
    + rewrite testFSM_setup. cbn [fst snd testState].
      destruct ((c =? RED) || (c =? GREEN) || (c =? BLUE))%bool;
        cbn [phase_rank]; lia.
    + rewrite testFSM_lightup. cbn [fst snd testState phase_rank]. lia.
    + rewrite testFSM_testing. cbn [fst snd testState phase_rank]. lia.
  - rewrite testFSM_newTest_eq, testFSM_reset_eq. cbn [fst snd actualColor].
    rewrite testFSM_setup_RED. reflexivity.
Qed.

Lemma guess_no_LED : forall p g hw,
  filter is_LED (guess_events p g hw) = [].
Proof.
  intros p g hw. rewrite guess_events_eq.
  destruct (bottom_edge hw), (top_edge hw); reflexivity.
Qed.

Lemma lightup_events_LED : forall a,
  filter is_LED (lightup_events a) = lightup_events a.
Proof. intros [[] [] []]; reflexivity. Qed.

(** X7: the LED commands of a poll of [testFSM]: with the new-test signal
    the three LEDs are turned off and none is turned on; without it, in the
    [lightup] state the LEDs of the channels of the actual mix are turned
    on, and in [setup] and [testing] no LED command is given. *)
Theorem testFSM_LED_commands :
  forall (nt r : bool) (s : testFSM_statics) (hw : hw_inputs),
  filter is_LED (testFSM_events nt r s hw) =
  if nt then reset_events
  else if is_lightup (testState s) then lightup_events (actualColor s)
  else [].
Proof.
  intros nt r [a g c t p] hw. unfold testFSM_events.
  destruct nt.
  - rewrite testFSM_newTest_eq, testFSM_reset_eq. cbn [fst snd actualColor].
    rewrite testFSM_setup_RED. reflexivity.
  - destruct t; cbn [testState is_lightup actualColor].
    + rewrite testFSM_setup. reflexivity.
    + rewrite testFSM_lightup. cbn [snd]. apply lightup_events_LED.
    + rewrite testFSM_testing. cbn [snd]. apply guess_no_LED.
Qed.

Lemma over_selected_match : forall g a,
  over_selected g a = true -> match_ g a = false.
Proof.
  intros [[] [] []] [[] [] []]; cbn; intros H;
    first [reflexivity | discriminate H].
Qed.

Lemma over_selected_guess : forall p g a hw,
  over_selected g a = true -> over_selected (guess_color p g hw) a = true.
Proof.
  intros p g a hw H.
  destruct (guess_color_keeps_flags p g hw) as (Hr & Hg & Hb).
  destruct (guess_color p g hw) as [r' gr' b'].
  destruct g as [r gr b], a as [ar ag ab].
  cbn [hasRed hasGreen hasBlue over_selected] in *.
  destruct r, gr, b, r', gr', b', ar, ag, ab; cbn in *;
    first [reflexivity | discriminate].
Qed.

(** X8: once the guessed mix has a channel that the actual mix has not, it
    still has one after every poll in the [testing] state, and a poll on
    which the test ends writes false to the result: a wrong selection can
    only end in a wrong answer. *)
Theorem testFSM_over_selection_is_final :
  forall (r : bool) (s : testFSM_statics) (hw : hw_inputs),
  testState s = testing ->
  over_selected (guessColor s) (actualColor s) = true ->
  let s' := testFSM_statics_after false r s hw in
  testState s' = testing /\
  over_selected (guessColor s') (actualColor s') = true /\
  (if testFSM_finished false r s hw
   then negb (testFSM_result false r s hw) else true) = true.
Proof.
  intros r [a g c t p] hw Ht Ho. cbn [testState guessColor actualColor] in *.
  subst t. cbv zeta.
  unfold testFSM_statics_after, testFSM_finished, testFSM_result.
  rewrite testFSM_testing. cbn [fst snd testState guessColor actualColor].
  pose proof (over_selected_guess p g a hw Ho) as Ho'.
  repeat split; try assumption.
  destruct (guess_finished p g hw); [| reflexivity].
  now rewrite (over_selected_match _ _ Ho').
Qed.

Lemma testFSM_over_selection_is_final_witness :
  let s := mkTestStatics (mkColorMix false false true)
                         (mkColorMix true false true) 4 testing 4 in
  (if testFSM_finished false true s (only_select quiet)
   then negb (testFSM_result false true s (only_select quiet)) else true)
  = true.
Proof.
  cbv zeta.
  exact (proj2 (proj2 (testFSM_over_selection_is_final true
    (mkTestStatics (mkColorMix false false true)
                   (mkColorMix true false true) 4 testing 4)
    (only_select quiet) eq_refl eq_refl))).
Defined.

(** X9: in the [setup] and [lightup] states a poll of [testFSM] does not
    depend on the button edges: it does not query the buttons or draw on the
    menu, leaves the guessed mix and the arrow as they are, and does not
    report completion. *)
Theorem testFSM_buttons_ignored_before_testing :
  forall (r : bool) (s : testFSM_statics) (hw : hw_inputs) (b t : bool),
  is_testing (testState s) = false ->
  let s' := testFSM_statics_after false r s hw in
  testFSM false r s (with_buttons hw b t) = testFSM false r s hw /\
  guessColor s' = guessColor s /\
  arrowPos s' = arrowPos s /\
  testFSM_finished false r s hw = false /\
  filter is_menu_call (testFSM_events false r s hw) = [].
Proof.
  intros r [a g c ts p] hw b t Hs. cbn [testState] in Hs. cbv zeta.
  unfold testFSM_statics_after, testFSM_finished, testFSM_events.
  destruct ts; [| | discriminate].
  - rewrite !testFSM_setup. repeat split; reflexivity.
  - rewrite !testFSM_lightup. cbn [fst snd].
    repeat split; try reflexivity.
    destruct a as [[] [] []]; reflexivity.
Qed.

Lemma testFSM_buttons_ignored_before_testing_witness :
  testFSM false false testFSM_init (with_buttons quiet true true) =
  testFSM false false testFSM_init quiet.
Proof.
  exact (proj1 (testFSM_buttons_ignored_before_testing false testFSM_init
                  quiet true true eq_refl)).
Defined.

(** ** [ScreensFSM]: every state *)

Lemma ScreensFSM_INSTRUCTIONS_eq : forall nt t hw,
  ScreensFSM (mkScreenStatics INSTRUCTIONS nt t) hw =
  if bottom_edge hw then
    (mkScreenStatics TEST true t,
     E_Booster_Bottom_Button_Pushed :: test_screen_events)
  else (mkScreenStatics INSTRUCTIONS nt t, [E_Booster_Bottom_Button_Pushed]).
Proof.
  intros nt t hw. unfold ScreensFSM, ScreensFSM_switch.
  cbn [state]. unfold bind at 1. unfold bind at 1.
  unfold Booster_Bottom_Button_Pushed, query.
  destruct (bottom_edge hw); reflexivity.
Qed.

Lemma ScreensFSM_TESTEND_eq : forall nt t hw,
  ScreensFSM (mkScreenStatics TESTEND nt t) hw =
  if timer_expired hw then
    (mkScreenStatics INSTRUCTIONS nt t,
     E_OneShotSWTimerExpired :: instructions_screen_events)
  else (mkScreenStatics TESTEND nt t, [E_OneShotSWTimerExpired]).
Proof.
  intros nt t hw. unfold ScreensFSM, ScreensFSM_switch.
  cbn [state]. unfold bind at 1. unfold bind at 1.
  unfold OneShotSWTimerExpired, query.
  destruct (timer_expired hw); reflexivity.
Qed.

(** The state after a poll. *)
Lemma ScreensFSM_next_state : forall s hw,
  state (fst (ScreensFSM s hw)) =
  match state s with
  | INCEPTION => OPENING
  | OPENING => if timer_expired hw then INSTRUCTIONS else OPENING
  | INSTRUCTIONS => if bottom_edge hw then TEST else INSTRUCTIONS
  | TEST =>
      if testFSM_finished (newTest s) (result_on_entry hw) (test s) hw
      then TESTEND else TEST
  | TESTEND => if timer_expired hw then INSTRUCTIONS else TESTEND
  end.
Proof.
  intros [[] nt t] hw; cbn [state newTest test].
  - reflexivity.
  - rewrite ScreensFSM_OPENING_eq. now destruct (timer_expired hw).
  - rewrite ScreensFSM_INSTRUCTIONS_eq. now destruct (bottom_edge hw).
  - rewrite ScreensFSM_TEST_eq. cbv zeta.
    now destruct (testFSM_finished nt (result_on_entry hw) t hw).
  - rewrite ScreensFSM_TESTEND_eq. now destruct (timer_expired hw).
Qed.

(** X10: the state diagram of [ScreensFSM].  A poll follows one of the
    arrows [INCEPTION] to [OPENING], [OPENING] to [INSTRUCTIONS],
    [INSTRUCTIONS] to [TEST], [TEST] to [TESTEND], [TESTEND] to
    [INSTRUCTIONS], or stays (never in [INCEPTION]); which one is decided by
    the timer in [OPENING] and [TESTEND], by the bottom button in
    [INSTRUCTIONS] and by the flag [testFSM] returns in [TEST]; and over a
    run of any length and from any statics, [INCEPTION] is never the state
    after a poll. *)
Theorem ScreensFSM_transitions :
  forall (s : ScreensFSM_statics) (hw : hw_inputs) (polls : list hw_inputs),
  transition_allowed (state s) (state (fst (ScreensFSM s hw))) = true /\
  state (fst (ScreensFSM s hw)) =
    match state s with
    | INCEPTION => OPENING
    | OPENING => if timer_expired hw then INSTRUCTIONS else OPENING
    | INSTRUCTIONS => if bottom_edge hw then TEST else INSTRUCTIONS
    | TEST =>
        if testFSM_finished (newTest s) (result_on_entry hw) (test s) hw
        then TESTEND else TEST
    | TESTEND => if timer_expired hw then INSTRUCTIONS else TESTEND
    end /\
  Forall (fun s' => is_INCEPTION (state s') = false)
         (main_loop_states s polls).
Proof.
  intros s hw polls. split; [| split].
  - rewrite ScreensFSM_next_state.
    destruct (state s), (timer_expired hw), (bottom_edge hw),
      (testFSM_finished (newTest s) (result_on_entry hw) (test s) hw);
      reflexivity.
  - apply ScreensFSM_next_state.
  - revert s. induction polls as [| h polls IH]; intros s.
    + constructor.
    + cbn [main_loop_states]. constructor; [| apply IH].
      rewrite ScreensFSM_next_state.
      destruct (state s), (timer_expired h), (bottom_edge h),
        (testFSM_finished (newTest s) (result_on_entry h) (test s) h);
        reflexivity.
Qed.

(** A run over two lists of polls is the run over the first followed by
    the run over the second. *)
Lemma main_loop_app : forall l1 l2 s,
  main_loop s (l1 ++ l2) =
  (fst (main_loop (fst (main_loop s l1)) l2),
   snd (main_loop s l1) ++ snd (main_loop (fst (main_loop s l1)) l2)).
Proof.
  induction l1 as [| h l1 IH]; intros l2 s.
  - cbn [app main_loop fst snd]. now destruct (main_loop s l2).
  - cbn [app main_loop]. destruct (ScreensFSM s h) as [s1 tr1].
    rewrite IH. destruct (main_loop s1 l1) as [s2 tr2]. cbn [fst snd].
    destruct (main_loop s2 l2) as [s3 tr3]. cbn [fst snd].
    now rewrite app_assoc.
Qed.

(** Polls that leave the statics alone and make one call each. *)
Lemma main_loop_stutter : forall (P : hw_inputs -> Prop) s e,
  (forall h, P h -> ScreensFSM s h = (s, [e])) ->
  forall waiting, Forall P waiting ->
  main_loop s waiting = (s, repeat e (List.length waiting)) /\
  main_loop_states s waiting = repeat s (List.length waiting).
Proof.
  intros P s e Hstep waiting Hw.
  induction Hw as [| h waiting Hh Hw [IH1 IH2]].
  - split; reflexivity.
  - cbn [main_loop main_loop_states List.length repeat].
    rewrite (Hstep h Hh). cbn [fst]. rewrite IH1, IH2. split; reflexivity.
Qed.

(** X11: in the [INSTRUCTIONS] state polls without a bottom-button edge
    leave the statics as they are and only query the bottom button (the top
    button is not looked at); the first poll with a bottom-button edge moves
    to [TEST], raises [newTest], leaves the statics of [testFSM] alone and
    draws the test screen. *)
Theorem ScreensFSM_instructions_until_bottom_button :
  forall (s : ScreensFSM_statics) (waiting : list hw_inputs) (hw : hw_inputs),
  state s = INSTRUCTIONS ->
  Forall (fun h => bottom_edge h = false) waiting ->
  bottom_edge hw = true ->
  main_loop s waiting =
    (s, repeat E_Booster_Bottom_Button_Pushed (List.length waiting)) /\
  main_loop s (waiting ++ [hw]) =
    (mkScreenStatics TEST true (test s),
     repeat E_Booster_Bottom_Button_Pushed (List.length waiting) ++
     E_Booster_Bottom_Button_Pushed :: test_screen_events).
Proof.
  intros [st nt t] waiting hw Hs Hw Hb. cbn [state] in Hs. subst st.
  destruct (main_loop_stutter (fun h => bottom_edge h = false)
              (mkScreenStatics INSTRUCTIONS nt t)
              E_Booster_Bottom_Button_Pushed) with (waiting := waiting)
    as [H1 _]; [| assumption |].
  { intros h Hh. rewrite ScreensFSM_INSTRUCTIONS_eq, Hh. reflexivity. }
  split; [assumption |].
  rewrite main_loop_app, H1. cbn [fst snd main_loop test].
  rewrite ScreensFSM_INSTRUCTIONS_eq, Hb. cbn [fst snd].
  now rewrite app_nil_r.
Qed.

Lemma ScreensFSM_instructions_until_bottom_button_witness :
  fst (main_loop (mkScreenStatics INSTRUCTIONS false testFSM_init)
                 ([quiet; only_select quiet] ++ [only_move quiet])) =
  mkScreenStatics TEST true testFSM_init.
Proof.
  assert (Hq : Forall (fun h => bottom_edge h = false)
                      [quiet; only_select quiet]) by (repeat constructor).
  exact (f_equal fst
    (proj2 (ScreensFSM_instructions_until_bottom_button
              (mkScreenStatics INSTRUCTIONS false testFSM_init)
              [quiet; only_select quiet] (only_move quiet)
              eq_refl Hq eq_refl))).
Defined.

(** X12: in the [TESTEND] state polls on which the timer has not expired
    leave the statics as they are and only query the timer; the first poll
    on which it has expired moves to [INSTRUCTIONS] and draws the
    instructions screen, leaving [newTest] and the statics of [testFSM] as
    they are. *)
Theorem ScreensFSM_testend_until_timer_expires :
  forall (s : ScreensFSM_statics) (waiting : list hw_inputs) (hw : hw_inputs),
  state s = TESTEND ->
  Forall (fun h => timer_expired h = false) waiting ->
  timer_expired hw = true ->
  main_loop s waiting =
    (s, repeat E_OneShotSWTimerExpired (List.length waiting)) /\
  main_loop s (waiting ++ [hw]) =
    (mkScreenStatics INSTRUCTIONS (newTest s) (test s),
     repeat E_OneShotSWTimerExpired (List.length waiting) ++
     E_OneShotSWTimerExpired :: instructions_screen_events).
Proof.
  intros [st nt t] waiting hw Hs Hw Hb. cbn [state] in Hs. subst st.
  destruct (main_loop_stutter (fun h => timer_expired h = false)
              (mkScreenStatics TESTEND nt t)
              E_OneShotSWTimerExpired) with (waiting := waiting)
    as [H1 _]; [| assumption |].
  { intros h Hh. rewrite ScreensFSM_TESTEND_eq, Hh. reflexivity. }
  split; [assumption |].
  rewrite main_loop_app, H1. cbn [fst snd main_loop test newTest].
  rewrite ScreensFSM_TESTEND_eq, Hb. cbn [fst snd].
  now rewrite app_nil_r.
Qed.

Lemma ScreensFSM_testend_until_timer_expires_witness :
  fst (main_loop (mkScreenStatics TESTEND false testFSM_init)
                 ([quiet; only_move quiet] ++ [expired])) =
  mkScreenStatics INSTRUCTIONS false testFSM_init.
Proof.
  assert (Hq : Forall (fun h => timer_expired h = false)
                      [quiet; only_move quiet]) by (repeat constructor).
  exact (f_equal fst
    (proj2 (ScreensFSM_testend_until_timer_expires
              (mkScreenStatics TESTEND false testFSM_init)
              [quiet; only_move quiet] expired eq_refl Hq eq_refl))).
Defined.

Lemma testFSM_switch_result_on_entry : forall s j b t e x y,
  testFSM_switch s (mkInputs j b t e x) = testFSM_switch s (mkInputs j b t e y).
Proof.
  intros [[ar ag ab] g c [] p] [vx vy] b t e x y.
  - reflexivity.
  - destruct ar, ag, ab; reflexivity.
  - unfold testFSM_switch. cbn [testState arrowPos guessColor].
    unfold bind.
    assert (H : guess p g (mkInputs (vx, vy) b t e x) =
                guess p g (mkInputs (vx, vy) b t e y)).
    { hal_unfold. destruct b, t; cbn [bottom_edge top_edge fst snd];
        repeat match goal with
               | |- context [if ?c then _ else _] => destruct c
               end; reflexivity. }
    rewrite H. clear H.
    destruct (guess p g _) as [[[f p'] g'] tr]. reflexivity.
Qed.

Lemma testFSM_hw_result_on_entry : forall nt r s hw x,
  testFSM nt r s (with_result_on_entry hw x) = testFSM nt r s hw.
Proof.
  intros nt r s [j b t e y] x. unfold with_result_on_entry.
  cbn [joystick bottom_edge top_edge timer_expired].
  unfold testFSM, bind.
  destruct nt.
  - rewrite !testFSM_reset_eq.
    rewrite (testFSM_switch_result_on_entry _ j b t e x y).
    destruct (testFSM_switch _ _) as [[f s'] tr]. reflexivity.
  - unfold ret.
    rewrite (testFSM_switch_result_on_entry _ j b t e x y).
    destruct (testFSM_switch _ _) as [[f s'] tr]. reflexivity.
Qed.

Lemma testFSM_result_irrelevant : forall nt r r' s hw,
  testFSM_finished nt r s hw = testFSM_finished nt r' s hw /\
  testFSM_statics_after nt r s hw = testFSM_statics_after nt r' s hw /\
  testFSM_events nt r s hw = testFSM_events nt r' s hw /\
  (testFSM_finished nt r s hw = true ->
   testFSM_result nt r s hw = testFSM_result nt r' s hw) /\
  (testFSM_finished nt r s hw = false -> testFSM_result nt r s hw = r).
Proof.
  intros nt r r' s hw.
  unfold testFSM_finished, testFSM_statics_after, testFSM_events,
         testFSM_result, testFSM, bind.
  destruct ((if nt then testFSM_reset s else ret s) hw) as [s1 tr1].
  destruct (testFSM_switch s1 hw) as [[f s2] tr2].
  unfold ret. cbn [fst snd].
  repeat split; intros; subst; reflexivity.
Qed.

(** X13: the local [result] of [ScreensFSM] is not initialised, and what it
    holds when the call begins has no effect: the statics and the calls of a
    poll are the same for both values, since the end screen is drawn only
    when [testFSM] has written the result. *)
Theorem ScreensFSM_ignores_uninitialised_result :
  forall (s : ScreensFSM_statics) (hw : hw_inputs) (x : bool),
  ScreensFSM s (with_result_on_entry hw x) = ScreensFSM s hw.
Proof.
  intros [[] nt t] hw x.
  - reflexivity.
  - rewrite !ScreensFSM_OPENING_eq. reflexivity.
  - rewrite !ScreensFSM_INSTRUCTIONS_eq. reflexivity.
  - rewrite !ScreensFSM_TEST_eq. cbv zeta.
    unfold testFSM_finished, testFSM_statics_after, testFSM_events,
           testFSM_result.
    rewrite testFSM_hw_result_on_entry.
    cbn [with_result_on_entry result_on_entry].
    destruct (testFSM_result_irrelevant nt x (result_on_entry hw) t hw)
      as (Hf & Hs & He & Hr & _).
    unfold testFSM_finished, testFSM_statics_after, testFSM_events,
           testFSM_result in *.
    rewrite Hf in Hr |- *. rewrite Hs, He.
    destruct (fst (fst (fst (testFSM nt (result_on_entry hw) t hw)))).
    + rewrite (Hr eq_refl). reflexivity.
    + reflexivity.
  - rewrite !ScreensFSM_TESTEND_eq. reflexivity.
Qed.

Lemma testFSM_no_timer_start : forall nt r s hw,
  filter is_InitOneShotSWTimer (testFSM_events nt r s hw) = [].
Proof.
  intros nt r [a g c t p] hw. unfold testFSM_events.
  destruct nt.
  - rewrite testFSM_newTest_eq, testFSM_reset_eq. cbn [fst snd actualColor].
    rewrite testFSM_setup_RED. reflexivity.
  - destruct t.
    + rewrite testFSM_setup. reflexivity.
    + rewrite testFSM_lightup. cbn [snd]. destruct a as [[] [] []]; reflexivity.
    + rewrite testFSM_testing. cbn [snd]. rewrite guess_events_eq.
      destruct (bottom_edge hw), (top_edge hw); reflexivity.
Qed.

(** X14: a poll of [ScreensFSM] starts the one-shot timer once when it
    leaves [INCEPTION] and once when it leaves [TEST] for [TESTEND], and on
    no other poll: the timer is never started again while [OPENING] or
    [TESTEND] wait for it. *)
Theorem ScreensFSM_timer_starts :
  forall (s : ScreensFSM_statics) (hw : hw_inputs),
  List.length (filter is_InitOneShotSWTimer (snd (ScreensFSM s hw))) =
  if (is_INCEPTION (state s) ||
      (is_TEST (state s) &&
       testFSM_finished (newTest s) (result_on_entry hw) (test s) hw))%bool
  then 1%nat
  else 0%nat.
Proof.
  intros [[] nt t] hw; cbn [state newTest test is_INCEPTION is_TEST orb andb].
  - reflexivity.
  - rewrite ScreensFSM_OPENING_eq. now destruct (timer_expired hw).
  - rewrite ScreensFSM_INSTRUCTIONS_eq. now destruct (bottom_edge hw).
  - rewrite ScreensFSM_TEST_eq. cbv zeta.
    destruct (testFSM_finished nt (result_on_entry hw) t hw); cbn [snd].
    + rewrite filter_app, testFSM_no_timer_start.
      now destruct (testFSM_result nt (result_on_entry hw) t hw).
    + now rewrite testFSM_no_timer_start.
  - rewrite ScreensFSM_TESTEND_eq. now destruct (timer_expired hw).
Qed.

Lemma end_screen_events_eq : forall b hw,
  snd (DrawEndTestScreen b hw) =
  [E_LCDClearDisplay MY_BLACK;
   E_PrintString (if b then "Right!" else "Wrong!") 2 3].
Proof. intros [] hw; reflexivity. Qed.

(** X15: a poll that takes [ScreensFSM] from [TEST] to [TESTEND] is a poll
    of [guess] in the [testing] state with [newTest] down; it changes
    neither mix, starts the timer and then draws the end screen, which says
    Right! when the guessed mix equals the actual mix and Wrong! when it
    does not. *)
Theorem ScreensFSM_end_screen_verdict :
  forall (s : ScreensFSM_statics) (hw : hw_inputs),
  state s = TEST ->
  state (fst (ScreensFSM s hw)) = TESTEND ->
  let t' := test (fst (ScreensFSM s hw)) in
  (newTest s = false /\ testState (test s) = testing) /\
  (guessColor t' = guessColor (test s) /\
   actualColor t' = actualColor (test s)) /\
  snd (ScreensFSM s hw) =
    guess_events (arrowPos (test s)) (guessColor (test s)) hw ++
    timer_start_events OPENING_WAIT ++
    [E_LCDClearDisplay MY_BLACK;
     E_PrintString
       (if match_ (guessColor (test s)) (actualColor (test s))
        then "Right!" else "Wrong!") 2 3] /\
  (match_ (guessColor (test s)) (actualColor (test s)) = true <->
   guessColor (test s) = actualColor (test s)).
Proof.
  intros [st nt t] hw Hs. cbn [state] in Hs. subst st.
  cbn [newTest test]. rewrite ScreensFSM_TEST_eq. cbv zeta.
  pose proof (testFSM_finished_eq nt (result_on_entry hw) t hw) as Hf.
  destruct (testFSM_finished nt (result_on_entry hw) t hw);
    cbn [fst snd state test]; [intros _ | discriminate].
  symmetry in Hf. apply andb_true_iff in Hf. destruct Hf as [Hf Hg].
  apply andb_true_iff in Hf. destruct Hf as [Hn Ht].
  destruct nt; [discriminate |].
  destruct t as [a g c ts p]. cbn [testState arrowPos guessColor actualColor]
    in *.
  destruct ts; try discriminate.
  unfold testFSM_statics_after, testFSM_events, testFSM_result.
  rewrite testFSM_testing. cbn [fst snd guessColor actualColor]. rewrite Hg.
  assert (Hc : guess_color p g hw = g).
  { rewrite guess_finished_eq in Hg. rewrite guess_color_eq. cbv zeta in *.
    destruct (top_edge hw); [| reflexivity].
    repeat match goal with
           | |- context [if ?c =? ?d then _ else _] => destruct (c =? d)
           end; first [discriminate | reflexivity]. }
  rewrite Hc, end_screen_events_eq.
  repeat split; try reflexivity; apply match_true_iff.
Qed.

Lemma ScreensFSM_end_screen_verdict_witness :
  let s := mkScreenStatics TEST false
             (mkTestStatics (mkColorMix false false true)
                            (mkColorMix true false true) 4 testing 4) in
  snd (ScreensFSM s (only_select quiet)) =
    [E_Booster_Bottom_Button_Pushed; E_Booster_Top_Button_Pushed;
     E_LCDDrawChar 4 9 "*";
     E_InitOneShotSWTimer TIMER32_1_BASE 1000; E_StartOneShotSWTimer;
     E_LCDClearDisplay MY_BLACK; E_PrintString "Wrong!" 2 3].
Proof.
  cbv zeta.
  exact (proj1 (proj2 (proj2 (ScreensFSM_end_screen_verdict
    (mkScreenStatics TEST false
       (mkTestStatics (mkColorMix false false true)
                      (mkColorMix true false true) 4 testing 4))
    (only_select quiet) eq_refl eq_refl)))).
Defined.

(** ** Whole tests *)

Ltac test_poll :=
  rewrite ScreensFSM_TEST_eq; cbv zeta;
  unfold testFSM_finished, testFSM_statics_after, testFSM_events,
         testFSM_result.

(** X16: a new test takes nothing from the test before it.  From the
    [INSTRUCTIONS] state, whatever the statics hold, the poll with a
    bottom-button edge and the five polls after it end in [TEST] with the
    actual mix made of the parity bits of the first three joystick samples,
    the guessed mix all-false, the arrow on the first row and the state
    [testing]; the calls made are the button query, the test screen, the
    three LEDs off, four joystick reads and the LEDs of the mix on. *)
Theorem ScreensFSM_new_test_starts_clean :
  forall (s : ScreensFSM_statics) (hw0 hw1 hw2 hw3 hw4 hw5 : hw_inputs),
  state s = INSTRUCTIONS ->
  bottom_edge hw0 = true ->
  let mix := mkColorMix (parity_xor hw1) (parity_xor hw2) (parity_xor hw3) in
  main_loop s [hw0; hw1; hw2; hw3; hw4; hw5] =
  (mkScreenStatics TEST false
     (mkTestStatics mix all_false (END + 1) testing TOP_OPTION_POS),
   (E_Booster_Bottom_Button_Pushed :: test_screen_events) ++
   (reset_events ++ [E_getSampleJoyStick]) ++
   [E_getSampleJoyStick] ++ [E_getSampleJoyStick] ++ [E_getSampleJoyStick] ++
   lightup_events mix).
Proof.
  intros [st nt [a g c ts p]] hw0 hw1 hw2 hw3 hw4 hw5 Hs Hb.
  cbn [state] in Hs. subst st. cbv zeta.
  rewrite <- !sampled_bit_parity.
  cbn [main_loop].
  rewrite ScreensFSM_INSTRUCTIONS_eq, Hb.
  test_poll. rewrite testFSM_newTest_eq, testFSM_reset_eq.
  cbn [fst snd actualColor]. rewrite testFSM_setup_RED. cbn [fst snd].
  test_poll. rewrite testFSM_setup_GREEN. cbn [fst snd].
  test_poll. rewrite testFSM_setup_BLUE. cbn [fst snd].
  test_poll. rewrite testFSM_setup_past_BLUE. cbn [fst snd].
  test_poll. rewrite testFSM_lightup. cbn [fst snd].
  rewrite app_nil_r. reflexivity.
Qed.

Lemma ScreensFSM_new_test_starts_clean_witness :
  fst (main_loop
         (mkScreenStatics INSTRUCTIONS false
            (mkTestStatics (mkColorMix true true true)
                           (mkColorMix true false true) 4 testing 3))
         [only_move quiet;
          mkInputs (1, 0) false false false false;
          mkInputs (2, 4) true true false false;
          mkInputs (3, 3) false false false false; quiet; quiet]) =
  mkScreenStatics TEST false
    (mkTestStatics (mkColorMix true false false) all_false 4 testing 1).
Proof.
  exact (f_equal fst (ScreensFSM_new_test_starts_clean
    (mkScreenStatics INSTRUCTIONS false
       (mkTestStatics (mkColorMix true true true)
                      (mkColorMix true false true) 4 testing 3))
    (only_move quiet)
    (mkInputs (1, 0) false false false false)
    (mkInputs (2, 4) true true false false)
    (mkInputs (3, 3) false false false false) quiet quiet
    eq_refl eq_refl)).
Defined.

(** [test_statics_ok] holds after a poll with the new-test signal and is
    kept by a poll without it. *)
Lemma testFSM_keeps_ok : forall nt r t hw,
  nt = true \/ test_statics_ok t ->
  test_statics_ok (testFSM_statics_after nt r t hw).
Proof.
  intros nt r [a g c ts p] hw H. unfold testFSM_statics_after.
  destruct nt.
  - rewrite testFSM_newTest_eq, testFSM_reset_eq. cbn [fst snd actualColor].
    rewrite testFSM_setup_RED. cbn [fst snd]. unfold test_statics_ok.
    cbn [arrowPos testState colorIndex].
    unfold TOP_OPTION_POS, BOTTOM_OPTION_POS, GREEN, END. lia.
  - destruct H as [H | [Hp Hc]]; [discriminate |].
    cbn [arrowPos testState colorIndex] in Hp, Hc.
    destruct ts.
    + rewrite testFSM_setup. cbn [fst snd]. unfold test_statics_ok.
      cbn [arrowPos testState colorIndex].
      unfold GREEN, END, RED, BLUE in *.
      assert (Hcase : c = 1 \/ c = 2 \/ c = 3) by lia.
      destruct Hcase as [-> | [-> | ->]]; cbn; (split; [assumption | lia]).
    + rewrite testFSM_lightup. cbn [fst snd]. unfold test_statics_ok.
      cbn [arrowPos testState colorIndex]. split; [assumption | exact I].
    + rewrite testFSM_testing. cbn [fst snd]. unfold test_statics_ok.
      cbn [arrowPos testState colorIndex].
      split; [now apply guess_arrowPos_in_rows | exact I].
Qed.

Lemma run_invariant_step : forall s hw,
  run_invariant s -> run_invariant (fst (ScreensFSM s hw)).
Proof.
  intros [[] nt t] hw H; unfold run_invariant in *;
    cbn [state newTest test] in *.
  - cbn. discriminate.
  - rewrite ScreensFSM_OPENING_eq. destruct (timer_expired hw);
      cbn [fst state]; discriminate.
  - rewrite ScreensFSM_INSTRUCTIONS_eq. destruct (bottom_edge hw);
      cbn [fst state newTest]; [intros _; now left | discriminate].
  - rewrite ScreensFSM_TEST_eq. cbv zeta.
    destruct (testFSM_finished nt (result_on_entry hw) t hw);
      cbn [fst state newTest test]; [discriminate |].
    intros _. right. apply testFSM_keeps_ok.
    destruct (H eq_refl) as [-> | Hok]; [now left | now right].
  - rewrite ScreensFSM_TESTEND_eq. destruct (timer_expired hw);
      cbn [fst state]; discriminate.
Qed.

Lemma run_invariant_main_loop : forall polls s,
  run_invariant s -> run_invariant (fst (main_loop s polls)).
Proof.
  induction polls as [| h polls IH]; intros s Hs.
  - exact Hs.
  - cbn [main_loop].
    pose proof (run_invariant_step s h Hs) as H1.
    destruct (ScreensFSM s h) as [s1 tr1]. cbn [fst] in H1.
    specialize (IH s1 H1).
    destruct (main_loop s1 polls) as [s2 tr2]. exact IH.
Qed.

(** X17: in every run of the program from power-up, whenever the state is
    [TEST] and the new-test block has run, the arrow is on one of the four
    rows of the menu, and the colour cursor is between Green and one past
    Blue while the state of [testFSM] is [setup] (so [setup] is always left
    on its fourth poll) and one further in [lightup]. *)
Theorem main_loop_keeps_arrow_on_menu :
  forall (polls : list hw_inputs),
  let s := fst (main_loop ScreensFSM_init polls) in
  state s = TEST ->
  newTest s = false ->
  TOP_OPTION_POS <= arrowPos (test s) <= BOTTOM_OPTION_POS /\
  match testState (test s) with
  | setup => GREEN <= colorIndex (test s) <= END
  | lightup => colorIndex (test s) = END + 1
  | testing => True
  end.
Proof.
  intros polls s Hs Hn.
  assert (H : run_invariant s).
  { apply run_invariant_main_loop. unfold run_invariant. cbn. discriminate. }
  destruct (H Hs) as [Ht | Hok]; [congruence | exact Hok].
Qed.

Lemma main_loop_keeps_arrow_on_menu_witness :
  1 <= arrowPos (test (fst (main_loop ScreensFSM_init
                              [quiet; expired; only_move quiet; quiet;
                               quiet; quiet; quiet; quiet;
                               only_move quiet; only_move quiet])))
    <= 4.
Proof.
  exact (proj1 (main_loop_keeps_arrow_on_menu
                  [quiet; expired; only_move quiet; quiet;
                   quiet; quiet; quiet; quiet;
                   only_move quiet; only_move quiet] eq_refl eq_refl)).
Defined.

Ltac testing_move_poll Hb Ht :=
  test_poll; rewrite testFSM_testing;
  match goal with
  | |- context [guess_finished ?p ?g ?hw] =>
      let H := fresh in
      assert (H : TOP_OPTION_POS <= p <= BOTTOM_OPTION_POS)
        by (unfold TOP_OPTION_POS, BOTTOM_OPTION_POS; lia);
      destruct (guess_move_only p g hw H Hb Ht) as (-> & -> & -> & ->); clear H
  end;
  cbn [fst snd];
  repeat match goal with
         | |- context [if ?a =? ?b then ?x else ?y] =>
             let v := eval cbv in (if a =? b then x else y) in
             change (if a =? b then x else y) with v
         end.

(** X18: a whole test without a selection.  From [INSTRUCTIONS], the start
    of a test, its five first polls, three moves of the arrow and a select
    end in [TESTEND] with the arrow on the End row and nothing guessed, and
    the last call of the run prints Right! when the three parity bits
    sampled are all even and Wrong! otherwise. *)
Theorem ScreensFSM_no_selection_verdict :
  forall (s : ScreensFSM_statics)
         (hw0 hw1 hw2 hw3 hw4 hw5 m1 m2 m3 sel : hw_inputs),
  state s = INSTRUCTIONS ->
  bottom_edge hw0 = true ->
  bottom_edge m1 = true -> top_edge m1 = false ->
  bottom_edge m2 = true -> top_edge m2 = false ->
  bottom_edge m3 = true -> top_edge m3 = false ->
  bottom_edge sel = false -> top_edge sel = true ->
  let mix := mkColorMix (parity_xor hw1) (parity_xor hw2) (parity_xor hw3) in
  let run := main_loop s [hw0; hw1; hw2; hw3; hw4; hw5; m1; m2; m3; sel] in
  fst run =
    mkScreenStatics TESTEND false
      (mkTestStatics mix all_false (END + 1) testing BOTTOM_OPTION_POS) /\
  last (snd run) E_StartOneShotSWTimer =
    E_PrintString
      (if (negb (parity_xor hw1) && negb (parity_xor hw2) &&
           negb (parity_xor hw3))%bool
       then "Right!" else "Wrong!") 2 3.
Proof.
  intros [st nt [a g c ts p]] hw0 hw1 hw2 hw3 hw4 hw5 m1 m2 m3 sel
         Hs Hb0 Hb1 Ht1 Hb2 Ht2 Hb3 Ht3 Hbs Hts.
  cbn [state] in Hs. subst st. cbv zeta.
  rewrite <- !sampled_bit_parity.
  cbn [main_loop].
  rewrite ScreensFSM_INSTRUCTIONS_eq, Hb0.
  test_poll. rewrite testFSM_newTest_eq, testFSM_reset_eq.
  cbn [fst snd actualColor]. rewrite testFSM_setup_RED. cbn [fst snd].
  test_poll. rewrite testFSM_setup_GREEN. cbn [fst snd].
  test_poll. rewrite testFSM_setup_BLUE. cbn [fst snd].
  test_poll. rewrite testFSM_setup_past_BLUE. cbn [fst snd].
  test_poll. rewrite testFSM_lightup. cbn [fst snd].
  testing_move_poll Hb1 Ht1.
  testing_move_poll Hb2 Ht2.
  testing_move_poll Hb3 Ht3.
  test_poll. rewrite testFSM_testing.
  rewrite guess_events_eq, guess_finished_eq, guess_color_eq,
          !guess_arrowPos_eq, Hbs, Hts.
  destruct (sampled_bit hw1), (sampled_bit hw2), (sampled_bit hw3);
    split; reflexivity.
Qed.

Lemma ScreensFSM_no_selection_verdict_witness :
  last (snd (main_loop (mkScreenStatics INSTRUCTIONS false testFSM_init)
               [only_move quiet;
                mkInputs (2, 4) false false false false;
                mkInputs (1, 1) false false false false;
                mkInputs (0, 6) false false false false;
                quiet; quiet;
                only_move quiet; only_move quiet; only_move quiet;
                only_select quiet]))
       E_StartOneShotSWTimer = E_PrintString "Right!" 2 3.
Proof.
  exact (proj2 (ScreensFSM_no_selection_verdict
    (mkScreenStatics INSTRUCTIONS false testFSM_init)
    (only_move quiet)
    (mkInputs (2, 4) false false false false)
    (mkInputs (1, 1) false false false false)
    (mkInputs (0, 6) false false false false)
    quiet quiet (only_move quiet) (only_move quiet) (only_move quiet)
    (only_select quiet)
    eq_refl eq_refl eq_refl eq_refl eq_refl eq_refl eq_refl eq_refl
    eq_refl eq_refl)).
Defined.
